(** * FRA flight tracker: the runway prediction engine of [app.js]

    A shallow embedding of the prediction engine (the section "Runway
    Prediction Engine" of [app.js]: [toRad] .. [runPredictions]) and the
    proofs of its specified properties.

    Number model.  A JavaScript number is modelled by a real number: the
    arithmetic of [app.js] is read as exact arithmetic.  Rounding of IEEE
    doubles, signed zeros and the non-finite values are outside the model,
    with one exception: the literal [Infinity] that initialises [bestScore]
    and the [NaN] it would leave in [confidence] are represented where the
    code has them ([XNum], [Number]).  [null] and [undefined] are [None]
    of an option type, and each use writes out the coercion JavaScript
    performs there. *)

From Stdlib Require Import Reals Lra Lia ZArith List Bool String.
From Stdlib Require Import Permutation Sorted.
Import ListNotations.
Open Scope R_scope.

(** ** JavaScript primitives over the reals *)

Module JS.

(** [x < y], [x > y] on numbers. *)
Definition ltb (x y : R) : bool := if Rlt_dec x y then true else false.
Definition gtb (x y : R) : bool := ltb y x.
(** [x !== y] on numbers. *)
Definition neqb (x y : R) : bool := if Req_dec_T x y then false else true.

(** A comparison with an operand that may be [undefined]: [undefined]
    converts to [NaN] and every comparison with [NaN] is false. *)
Definition ltb_undef (x : option R) (y : R) : bool :=
  match x with Some v => ltb v y | None => false end.
Definition gtb_undef (x : option R) (y : R) : bool :=
  match x with Some v => gtb v y | None => false end.

(** [null] as an arithmetic operand converts to [0]. *)
Definition ofNull (x : option R) : R :=
  match x with Some v => v | None => 0 end.

(** [x != null]. *)
Definition notNull {A : Type} (x : option A) : bool :=
  match x with Some _ => true | None => false end.

(** Truthiness of a property holding a boolean, or absent. *)
Definition truthy (x : option bool) : bool :=
  match x with Some b => b | None => false end.

(** The integer part of a real, rounding toward zero. *)
Definition trunc (r : R) : Z :=
  if Rle_dec 0 r then Int_part r else (- Int_part (- r))%Z.

(** [n % d]: the remainder of the division truncated toward zero, so the
    result has the sign of the dividend. *)
Definition rem (n d : R) : R := n - d * IZR (trunc (n / d)).

(** [Math.atan2(y, x)]. *)
Definition atan2 (y x : R) : R :=
  if Rlt_dec 0 x then atan (y / x)
  else if Rlt_dec x 0 then
    if Rle_dec 0 y then atan (y / x) + PI else atan (y / x) - PI
  else if Rlt_dec 0 y then PI / 2
  else if Rlt_dec y 0 then - (PI / 2)
  else 0.

End JS.

(** ** Constants *)

Record LatLng : Type := { lat : R; lng : R }.

Definition FRA : LatLng := {| lat := 50.0267; lng := 8.5584 |}.
Definition ARRIVING_MAX_ALT : R := 4000.
Definition ARRIVING_MAX_DIST : R := 80.

(** The keys of [RUNWAYS]. *)
Inductive RunwayId : Type :=
  | RWY_25R | RWY_25C | RWY_25L | RWY_07L | RWY_07C | RWY_07R.

Module Runway.
(** The fields of a runway the engine reads ([color] and [label] are
    for display only). *)
Record t : Type := { threshold : LatLng; opposite : LatLng; heading : R }.
End Runway.

Definition RUNWAYS (id : RunwayId) : Runway.t :=
  match id with
  | RWY_25R => {| Runway.threshold := {| lat := 50.0371; lng := 8.4971 |};
                  Runway.opposite := {| lat := 50.0458; lng := 8.5337 |};
                  Runway.heading := 249 |}
  | RWY_25C => {| Runway.threshold := {| lat := 50.0326; lng := 8.5346 |};
                  Runway.opposite := {| lat := 50.0451; lng := 8.5870 |};
                  Runway.heading := 249 |}
  | RWY_25L => {| Runway.threshold := {| lat := 50.0275; lng := 8.5342 |};
                  Runway.opposite := {| lat := 50.0401; lng := 8.5865 |};
                  Runway.heading := 249 |}
  | RWY_07L => {| Runway.threshold := {| lat := 50.0458; lng := 8.5337 |};
                  Runway.opposite := {| lat := 50.0371; lng := 8.4971 |};
                  Runway.heading := 69 |}
  | RWY_07C => {| Runway.threshold := {| lat := 50.0451; lng := 8.5870 |};
                  Runway.opposite := {| lat := 50.0326; lng := 8.5346 |};
                  Runway.heading := 69 |}
  | RWY_07R => {| Runway.threshold := {| lat := 50.0401; lng := 8.5865 |};
                  Runway.opposite := {| lat := 50.0275; lng := 8.5342 |};
                  Runway.heading := 69 |}
  end.

(** The keys of [CONFIGS]. *)
Inductive Config : Type := westerly | easterly.

Definition CONFIGS (c : Config) : list RunwayId :=
  match c with
  | westerly => [RWY_25R; RWY_25C; RWY_25L]
  | easterly => [RWY_07L; RWY_07C; RWY_07R]
  end.

(** ** Geodesy *)

Definition toRad (deg : R) : R := (deg * PI) / 180.
Definition toDeg (rad : R) : R := (rad * 180) / PI.

Definition haversine (lat1 lon1 lat2 lon2 : R) : R :=
  let R0 := 6371 in
  let dLat := toRad (lat2 - lat1) in
  let dLon := toRad (lon2 - lon1) in
  let a :=
    sin (dLat / 2) ^ 2 +
    cos (toRad lat1) * cos (toRad lat2) * sin (dLon / 2) ^ 2 in
  R0 * 2 * JS.atan2 (sqrt a) (sqrt (1 - a)).

Definition bearing (lat1 lon1 lat2 lon2 : R) : R :=
  let dLon := toRad (lon2 - lon1) in
  let y := sin dLon * cos (toRad lat2) in
  let x :=
    cos (toRad lat1) * sin (toRad lat2) -
    sin (toRad lat1) * cos (toRad lat2) * cos dLon in
  JS.rem (JS.rem (toDeg (JS.atan2 y x)) 360 + 360) 360.

Definition crossTrackDistance
    (pointLat pointLon lineLat1 lineLon1 lineLat2 lineLon2 : R) : R :=
  let R0 := 6371 in
  let d13 := haversine lineLat1 lineLon1 pointLat pointLon / R0 in
  let brng13 := toRad (bearing lineLat1 lineLon1 pointLat pointLon) in
  let brng12 := toRad (bearing lineLat1 lineLon1 lineLat2 lineLon2) in
  Rabs (asin (sin d13 * sin (brng13 - brng12))) * R0.

Definition angleDiff (a b : R) : R :=
  let diff := JS.rem (a - b + 180) 360 - 180 in
  if JS.ltb diff (-180) then diff + 360 else diff.

(** ** Flights *)

(** A number that may be [NaN] (the value of [Infinity - Infinity]). *)
Inductive Number : Type := Num (r : R) | NaN.

(** A number that may be [Infinity] (the initial [bestScore]). *)
Inductive XNum : Type := Fin (r : R) | Infinity.

Module Flight.
(** A flight object as [fetchFlights] builds it and [runPredictions]
    extends it.  [longitude] and [latitude] are numbers ([fetchFlights]
    drops the records where one is [null]); [baroAltitude], [heading] and
    [verticalRate] are numbers or [null].  The last five properties are
    written by [runPredictions] and absent ([None]) before its first run;
    [predictedRunway] is then a runway name or [null] ([Some None]).
    The properties the engine neither reads nor writes ([callsign],
    [country], [onGround], [velocity]) are left out. *)
Record t : Type := {
  icao24 : string;
  longitude : R;
  latitude : R;
  baroAltitude : option R;
  heading : option R;
  verticalRate : option R;
  distanceToAirport : option R;
  isDeparting : option bool;
  isArriving : option bool;
  predictedRunway : option (option RunwayId);
  confidence : option Number
}.

(** Property assignments [f.p = v]. *)
Definition set_distanceToAirport (v : R) (f : t) : t :=
  {| icao24 := icao24 f; longitude := longitude f; latitude := latitude f;
     baroAltitude := baroAltitude f; heading := heading f;
     verticalRate := verticalRate f;
     distanceToAirport := Some v;
     isDeparting := isDeparting f; isArriving := isArriving f;
     predictedRunway := predictedRunway f; confidence := confidence f |}.

Definition set_isDeparting (v : bool) (f : t) : t :=
  {| icao24 := icao24 f; longitude := longitude f; latitude := latitude f;
     baroAltitude := baroAltitude f; heading := heading f;
     verticalRate := verticalRate f;
     distanceToAirport := distanceToAirport f;
     isDeparting := Some v; isArriving := isArriving f;
     predictedRunway := predictedRunway f; confidence := confidence f |}.

Definition set_isArriving (v : bool) (f : t) : t :=
  {| icao24 := icao24 f; longitude := longitude f; latitude := latitude f;
     baroAltitude := baroAltitude f; heading := heading f;
     verticalRate := verticalRate f;
     distanceToAirport := distanceToAirport f;
     isDeparting := isDeparting f; isArriving := Some v;
     predictedRunway := predictedRunway f; confidence := confidence f |}.

Definition set_predictedRunway (v : option RunwayId) (f : t) : t :=
  {| icao24 := icao24 f; longitude := longitude f; latitude := latitude f;
     baroAltitude := baroAltitude f; heading := heading f;
     verticalRate := verticalRate f;
     distanceToAirport := distanceToAirport f;
     isDeparting := isDeparting f; isArriving := isArriving f;
     predictedRunway := Some v; confidence := confidence f |}.

Definition set_confidence (v : Number) (f : t) : t :=
  {| icao24 := icao24 f; longitude := longitude f; latitude := latitude f;
     baroAltitude := baroAltitude f; heading := heading f;
     verticalRate := verticalRate f;
     distanceToAirport := distanceToAirport f;
     isDeparting := isDeparting f; isArriving := isArriving f;
     predictedRunway := predictedRunway f; confidence := Some v |}.

(** The flight as [fetchFlights] builds it: no derived property yet. *)
Definition raw (f : t) : t :=
  {| icao24 := icao24 f; longitude := longitude f; latitude := latitude f;
     baroAltitude := baroAltitude f; heading := heading f;
     verticalRate := verticalRate f;
     distanceToAirport := None;
     isDeparting := None; isArriving := None;
     predictedRunway := None; confidence := None |}.
End Flight.

(** ** Configuration detection *)

(** The filter of [detectConfiguration]. *)
Definition isCandidate (f : Flight.t) : bool :=
  JS.notNull (Flight.baroAltitude f) &&
  JS.ltb (JS.ofNull (Flight.baroAltitude f)) ARRIVING_MAX_ALT &&
  JS.notNull (Flight.heading f) &&
  JS.notNull (Flight.verticalRate f) &&
  JS.ltb (JS.ofNull (Flight.verticalRate f)) (-1) &&
  JS.ltb_undef (Flight.distanceToAirport f) ARRIVING_MAX_DIST.

(** The body of [candidates.forEach], on the two counters. *)
Definition castVotes (votes : nat * nat) (f : Flight.t) : nat * nat :=
  let '(westerlyVotes, easterlyVotes) := votes in
  let diffWest := Rabs (angleDiff (JS.ofNull (Flight.heading f)) 250) in
  let diffEast := Rabs (angleDiff (JS.ofNull (Flight.heading f)) 70) in
  let westerlyVotes :=
    if JS.ltb diffWest 40 then S westerlyVotes else westerlyVotes in
  let easterlyVotes :=
    if JS.ltb diffEast 40 then S easterlyVotes else easterlyVotes in
  (westerlyVotes, easterlyVotes).

Definition detectConfiguration (flights : list Flight.t) : Config :=
  let candidates := filter isCandidate flights in
  if Nat.eqb (List.length candidates) 0 then westerly
  else
    let '(westerlyVotes, easterlyVotes) :=
      fold_left castVotes candidates (0%nat, 0%nat) in
    if Nat.leb easterlyVotes westerlyVotes then westerly else easterly.

(** ** Flight classification *)

Definition isDeparting (flight : Flight.t) : bool :=
  match Flight.distanceToAirport flight, Flight.baroAltitude flight with
  | Some dist, Some alt =>
    let vr := Flight.verticalRate flight in
    if JS.ltb dist 30 && JS.notNull vr && JS.gtb (JS.ofNull vr) 2 then true
    else if JS.ltb dist 15 && JS.ltb alt 1500 &&
            JS.notNull vr && JS.gtb (JS.ofNull vr) 0.5 then true
    else if
      JS.ltb dist 25 && JS.ltb alt 2000 && JS.notNull (Flight.heading flight) &&
      (let diffNS1 := Rabs (angleDiff (JS.ofNull (Flight.heading flight)) 180) in
       let diffNS2 := Rabs (angleDiff (JS.ofNull (Flight.heading flight)) 360) in
       (JS.ltb diffNS1 25 || JS.ltb diffNS2 25) &&
       JS.notNull vr && JS.gtb (JS.ofNull vr) 0)
    then true
    else if
      JS.ltb dist 40 && JS.ltb alt 3000 && JS.notNull (Flight.heading flight) &&
      JS.notNull vr && JS.gtb (JS.ofNull vr) 1 &&
      (let bearingToAircraft :=
         bearing (lat FRA) (lng FRA)
                 (Flight.latitude flight) (Flight.longitude flight) in
       let diff :=
         Rabs (angleDiff (JS.ofNull (Flight.heading flight)) bearingToAircraft) in
       JS.ltb diff 40)
    then true
    else false
  | _, _ => false
  end.

Definition isArriving (flight : Flight.t) : bool :=
  match Flight.baroAltitude flight, Flight.heading flight with
  | Some alt, Some hdg =>
    if JS.gtb_undef (Flight.distanceToAirport flight) ARRIVING_MAX_DIST
    then false
    else if JS.gtb alt ARRIVING_MAX_ALT then false
    else if isDeparting flight then false
    else if JS.notNull (Flight.verticalRate flight) &&
            JS.gtb (JS.ofNull (Flight.verticalRate flight)) 3 then false
    else
      let diffWest := Rabs (angleDiff hdg 249) in
      let diffEast := Rabs (angleDiff hdg 69) in
      if JS.gtb diffWest 50 && JS.gtb diffEast 50 then false
      else if JS.gtb_undef (Flight.distanceToAirport flight) 5 then
        let bearingToAirport :=
          bearing (Flight.latitude flight) (Flight.longitude flight)
                  (lat FRA) (lng FRA) in
        let approachDiff := Rabs (angleDiff hdg bearingToAirport) in
        if JS.gtb approachDiff 70 then false else true
      else true
  | _, _ => false
  end.

(** ** Runway scoring *)

Definition RunwayId_eq_dec (x y : RunwayId) : {x = y} + {x <> y}.
Proof. decide equality. Defined.

(** [scores[key] = value] on an object whose property names are runway
    names: a property that exists keeps its place, a new one goes last
    ([Object.values] lists the values in this order). *)
Fixpoint setProp (scores : list (RunwayId * R)) (key : RunwayId) (value : R)
    : list (RunwayId * R) :=
  match scores with
  | [] => [(key, value)]
  | (k, v) :: rest =>
    if RunwayId_eq_dec k key then (k, value) :: rest
    else (k, v) :: setProp rest key value
  end.

(** [Object.values(scores)]. *)
Definition values (scores : list (RunwayId * R)) : list R := map snd scores.

(** [score < bestScore], where [bestScore] may still be [Infinity]. *)
Definition belowBest (score : R) (bestScore : XNum) : bool :=
  match bestScore with
  | Fin b => JS.ltb score b
  | Infinity => true
  end.

(** The variables the scoring loop of [predictRunway] assigns. *)
Record Scoring : Type := {
  bestRunway : option RunwayId;
  bestScore : XNum;
  scores : list (RunwayId * R)
}.

Definition initScoring : Scoring :=
  {| bestRunway := None; bestScore := Infinity; scores := [] |}.

(** The body of [activeRunways.forEach] in [predictRunway]. *)
Definition scoreRunway (flight : Flight.t) (st : Scoring) (rwyName : RunwayId)
    : Scoring :=
  let rwy := RUNWAYS rwyName in
  let xtd :=
    crossTrackDistance
      (Flight.latitude flight) (Flight.longitude flight)
      (lat (Runway.threshold rwy)) (lng (Runway.threshold rwy))
      (lat (Runway.opposite rwy)) (lng (Runway.opposite rwy)) in
  let headingPenalty :=
    Rabs (angleDiff (JS.ofNull (Flight.heading flight)) (Runway.heading rwy))
    / 180 in
  let score := xtd + headingPenalty * 5 in
  let scores' := setProp (scores st) rwyName score in
  if belowBest score (bestScore st) then
    {| bestRunway := Some rwyName; bestScore := Fin score; scores := scores' |}
  else
    {| bestRunway := bestRunway st; bestScore := bestScore st;
       scores := scores' |}.

Module Prediction.
Record t : Type := { runway : option RunwayId; confidence : Number }.
End Prediction.

(** [scoreValues.find((s) => s !== bestScore) || bestScore]: the first
    score that differs from the best one, unless there is none or it is
    falsy (the number 0). *)
Definition pickOtherScore (scoreValues : list R) (bestScore : R) : R :=
  match find (fun s => JS.neqb s bestScore) scoreValues with
  | Some s => if Req_dec_T s 0 then bestScore else s
  | None => bestScore
  end.

(** [activeRunways[0]]: both lists of [CONFIGS] have an element 0, so
    the default of [nth] is never returned. *)
Definition firstRunway (activeRunways : list RunwayId) : RunwayId :=
  nth 0 activeRunways RWY_25R.

Definition predictRunway (flight : Flight.t) (config : Config)
    : Prediction.t :=
  let activeRunways := CONFIGS config in
  if negb (JS.truthy (Flight.isArriving flight)) then
    {| Prediction.runway := None; Prediction.confidence := Num 0 |}
  else
    let rwyHeading := Runway.heading (RUNWAYS (firstRunway activeRunways)) in
    let headingDiff :=
      Rabs (angleDiff (JS.ofNull (Flight.heading flight)) rwyHeading) in
    let st := fold_left (scoreRunway flight) activeRunways initScoring in
    let scoreValues := values (scores st) in
    match bestScore st with
    | Infinity =>
      (* No score was below [Infinity], so no runway was scored:
         [otherScore] is [bestScore], the separation
         [Infinity - Infinity] is [NaN], and [Math.min], [+] and [*]
         keep it. *)
      {| Prediction.runway := bestRunway st; Prediction.confidence := NaN |}
    | Fin best =>
      let otherScore := pickOtherScore scoreValues best in
      let separation := otherScore - best in
      let confidence := Rmin 1 (0.5 + separation * 0.5) in
      let confidence :=
        if JS.ltb_undef (Flight.distanceToAirport flight) 20 &&
           JS.ltb headingDiff 10
        then Rmin 1 (confidence + 0.2) else confidence in
      let confidence :=
        if JS.gtb_undef (Flight.distanceToAirport flight) 50
        then confidence * 0.6
        else if JS.gtb_undef (Flight.distanceToAirport flight) 30
        then confidence * 0.8
        else confidence in
      let confidence :=
        if JS.notNull (Flight.verticalRate flight) &&
           JS.ltb (JS.ofNull (Flight.verticalRate flight)) (-2)
        then Rmin 1 (confidence + 0.1) else confidence in
      {| Prediction.runway := bestRunway st;
         Prediction.confidence := Num confidence |}
    end.

(** ** The pipeline *)

(** The body of the first [flights.forEach] of [runPredictions]. *)
Definition classify (f : Flight.t) : Flight.t :=
  let f :=
    Flight.set_distanceToAirport
      (haversine (Flight.latitude f) (Flight.longitude f) (lat FRA) (lng FRA))
      f in
  let f := Flight.set_isDeparting (isDeparting f) f in
  let f := Flight.set_isArriving (isArriving f) f in
  f.

(** The body of the second [flights.forEach]. *)
Definition predict (activeConfig : Config) (f : Flight.t) : Flight.t :=
  let prediction := predictRunway f activeConfig in
  let f := Flight.set_predictedRunway (Prediction.runway prediction) f in
  let f := Flight.set_confidence (Prediction.confidence prediction) f in
  f.

(** The module-level variable [activeConfig], [null] until the first run. *)
Record Globals : Type := { activeConfig : option Config }.

(** [runPredictions] updates the flight objects in place and assigns
    [activeConfig]; here it returns the new value of both.  The array
    holds each flight object once ([fetchFlights] builds one object per
    state vector), so the list of the objects' values stands for it. *)
Definition runPredictions (g : Globals) (flights : list Flight.t)
    : Globals * list Flight.t :=
  let flights := map classify flights in
  let config :=
    detectConfiguration
      (filter (fun f => JS.truthy (Flight.isArriving f) ||
                        negb (JS.truthy (Flight.isDeparting f)))
              flights) in
  let g := {| activeConfig := Some config |} in
  let flights := map (predict config) flights in
  (g, flights).

(** * The display of a batch

    The parts of [renderFlightList], [createPopup] and
    [updateAircraftOnMap] that decide what is shown: which flights the
    sidebar lists and in which order, the confidence percentage, and the
    markers kept for the aircraft.  The HTML built from them is left
    out. *)

(** ** The sidebar list *)

(** Truthiness of [f.predictedRunway]: a runway name (no name is the
    empty string), not [null] and not absent. *)
Definition hasPrediction (f : Flight.t) : bool :=
  match Flight.predictedRunway f with
  | Some (Some _) => true
  | _ => false
  end.

(** The first filter of [renderFlightList]. *)
Definition isListed (f : Flight.t) : bool :=
  hasPrediction f ||
  (JS.ltb_undef (Flight.distanceToAirport f) ARRIVING_MAX_DIST &&
   JS.notNull (Flight.baroAltitude f) &&
   JS.ltb (JS.ofNull (Flight.baroAltitude f)) ARRIVING_MAX_ALT).

(** [f.distanceToAirport || 999]: the distance, unless it is absent or
    falsy (the number 0). *)
Definition sortKey (f : Flight.t) : R :=
  match Flight.distanceToAirport f with
  | Some d => if Req_dec_T d 0 then 999 else d
  | None => 999
  end.

(** [arriving.sort((a, b) => key(a) - key(b))].  The comparator is a
    difference of keys and [Array.prototype.sort] is stable, so the
    result is the stable arrangement by ascending key, which insertion
    from the right computes: a flight goes behind those the comparator
    puts before it ([key(x) - key(y) > 0]) and ahead of the rest. *)
Fixpoint insertByDistance (x : Flight.t) (sorted : list Flight.t)
    : list Flight.t :=
  match sorted with
  | [] => [x]
  | y :: rest =>
    if JS.gtb (sortKey x - sortKey y) 0 then y :: insertByDistance x rest
    else x :: y :: rest
  end.

Definition sortByDistance (l : list Flight.t) : list Flight.t :=
  fold_right insertByDistance [] l.

(** The list [arriving] that [renderFlightList] renders and counts.
    [search] is [None] when [searchFilter] is empty; otherwise it holds
    the text match of the second filter (on [callsign] and [icao24],
    lower-cased), which is a parameter here. *)
Definition arrivingList (search : option (Flight.t -> bool))
    (flights : list Flight.t) : list Flight.t :=
  let arriving := filter isListed flights in
  let arriving :=
    match search with
    | Some matches => filter matches arriving
    | None => arriving
    end in
  sortByDistance arriving.

(** ** The confidence percentage *)

(** [Math.round]: the nearest integer, a tie going up. *)
Definition mathRound (x : R) : Z := Int_part (x + 0.5).

(** [f.confidence != null ? Math.round(f.confidence * 100) : 0], the
    percentage of the confidence bar and label; [None] stands for
    [NaN]. *)
Definition confPct (f : Flight.t) : option Z :=
  match Flight.confidence f with
  | Some (Num c) => Some (mathRound (c * 100))
  | Some NaN => None
  | None => Some 0%Z
  end.

(** ** The aircraft markers *)

(** The [Map] [aircraftMarkers], from [icao24] to a marker, in insertion
    order.  A marker is represented by the flight it shows: its position,
    icon and popup are all set from one flight at a time. *)
Definition Markers : Type := list (string * Flight.t).

(** [aircraftMarkers.has(icao)]. *)
Definition hasMarker (markers : Markers) (icao : string) : bool :=
  existsb (fun entry => String.eqb (fst entry) icao) markers.

(** [aircraftMarkers.get(icao)]. *)
Fixpoint getMarker (markers : Markers) (icao : string) : option Flight.t :=
  match markers with
  | [] => None
  | (k, m) :: rest => if String.eqb k icao then Some m else getMarker rest icao
  end.

(** The marker of [icao] is set to show [f] ([setLatLng], [setIcon],
    [bindPopup]); the entry keeps its place in the [Map]. *)
Fixpoint refreshMarker (markers : Markers) (icao : string) (f : Flight.t)
    : Markers :=
  match markers with
  | [] => []
  | (k, m) :: rest =>
    if String.eqb k icao then (k, f) :: rest
    else (k, m) :: refreshMarker rest icao f
  end.

(** The body of [flightData.forEach] in [updateAircraftOnMap]. *)
Definition drawAircraft (markers : Markers) (f : Flight.t) : Markers :=
  if hasMarker markers (Flight.icao24 f)
  then refreshMarker markers (Flight.icao24 f) f
  else markers ++ [(Flight.icao24 f, f)].

(** [updateAircraftOnMap]: the markers of the aircraft that are no
    longer present are deleted, then each flight is drawn. *)
Definition updateAircraftOnMap (markers : Markers)
    (flightData : list Flight.t) : Markers :=
  let currentIcaos := map Flight.icao24 flightData in
  let markers :=
    filter (fun entry =>
              existsb (String.eqb (fst entry)) currentIcaos)
           markers in
  fold_left drawAircraft flightData markers.

(** * The vocabulary of the specification *)

(** ** Geodesy *)

(** The haversine term [a] of two points, as [haversine] computes it. *)
Definition haversineA (lat1 lon1 lat2 lon2 : R) : R :=
  sin (toRad (lat2 - lat1) / 2) ^ 2 +
  cos (toRad lat1) * cos (toRad lat2) * sin (toRad (lon2 - lon1) / 2) ^ 2.

(** ** Departure and arrival *)

(** The vertical rate is known and above [x]. *)
Definition vrAbove (f : Flight.t) (x : R) : Prop :=
  exists v, Flight.verticalRate f = Some v /\ v > x.

(** "[h] is within [tol] degrees of [dir]": the two directions are at
    most [tol] degrees apart. *)
Definition within (tol h dir : R) : Prop := Rabs (angleDiff h dir) <= tol.

(** The heading is known and less than [tol] degrees away from [dir]. *)
Definition headingNear (f : Flight.t) (tol dir : R) : Prop :=
  exists h, Flight.heading f = Some h /\ Rabs (angleDiff h dir) < tol.

(** The heading is known and within [tol] degrees of [dir]. *)
Definition headingWithin (f : Flight.t) (tol dir : R) : Prop :=
  exists h, Flight.heading f = Some h /\ within tol h dir.

(** The four departure rules, on a known distance and altitude. *)
Definition departureRule1 (f : Flight.t) (dist alt : R) : Prop :=
  dist < 30 /\ vrAbove f 2.
Definition departureRule2 (f : Flight.t) (dist alt : R) : Prop :=
  dist < 15 /\ alt < 1500 /\ vrAbove f 0.5.
Definition departureRule3 (f : Flight.t) (dist alt : R) : Prop :=
  dist < 25 /\ alt < 2000 /\
  (headingNear f 25 180 \/ headingNear f 25 360) /\ vrAbove f 0.
Definition departureRule4 (f : Flight.t) (dist alt : R) : Prop :=
  dist < 40 /\ alt < 3000 /\ vrAbove f 1 /\
  headingNear f 40
    (bearing (lat FRA) (lng FRA) (Flight.latitude f) (Flight.longitude f)).

(** Rules 3 and 4 with "within" for the heading, and the answer the four
    rules give then. *)
Definition withinRule3 (f : Flight.t) (dist alt : R) : Prop :=
  dist < 25 /\ alt < 2000 /\
  (headingWithin f 25 180 \/ headingWithin f 25 360) /\ vrAbove f 0.
Definition withinRule4 (f : Flight.t) (dist alt : R) : Prop :=
  dist < 40 /\ alt < 3000 /\ vrAbove f 1 /\
  headingWithin f 40
    (bearing (lat FRA) (lng FRA) (Flight.latitude f) (Flight.longitude f)).
Definition withinRulesMatch (f : Flight.t) : Prop :=
  exists dist alt,
    Flight.distanceToAirport f = Some dist /\
    Flight.baroAltitude f = Some alt /\
    (departureRule1 f dist alt \/ departureRule2 f dist alt \/
     withinRule3 f dist alt \/ withinRule4 f dist alt).

(** The distance to the airport is known and above [x]. *)
Definition distAbove (f : Flight.t) (x : R) : Prop :=
  exists d, Flight.distanceToAirport f = Some d /\ d > x.

(** The altitude is known and above [x]. *)
Definition altAbove (f : Flight.t) (x : R) : Prop :=
  exists a, Flight.baroAltitude f = Some a /\ a > x.

(** The conditions under which [isArriving] is false whatever the
    heading is. *)
Definition arrivalExcluded (f : Flight.t) : Prop :=
  Flight.baroAltitude f = None \/ Flight.heading f = None \/
  distAbove f 80 \/ altAbove f 4000 \/
  isDeparting f = true \/ vrAbove f 3.

(** The heading is within 50 degrees of 249 or of 69 and, when the
    distance is above 5 km, within 70 degrees of the bearing from the
    aircraft to the airport. *)
Definition arrivalAligned (f : Flight.t) : Prop :=
  exists h,
    Flight.heading f = Some h /\
    (within 50 h 249 \/ within 50 h 69) /\
    (distAbove f 5 ->
     within 70 h
       (bearing (Flight.latitude f) (Flight.longitude f)
                (lat FRA) (lng FRA))).

(** ** Votes *)

(** A flight that may vote: altitude known and below 4000 m, heading
    known, vertical rate known and below -1 m/s, distance known and
    below 80 km. *)
Definition eligible (f : Flight.t) : bool :=
  match Flight.baroAltitude f, Flight.heading f,
        Flight.verticalRate f, Flight.distanceToAirport f with
  | Some alt, Some _, Some vr, Some dist =>
    JS.ltb alt 4000 && JS.ltb vr (-1) && JS.ltb dist 80
  | _, _, _, _ => false
  end.

(** An eligible flight whose heading is less than 40 degrees away from
    [dir] casts a vote for the configuration of that direction. *)
Definition votesFor (dir : R) (f : Flight.t) : bool :=
  eligible f &&
  match Flight.heading f with
  | Some h => JS.ltb (Rabs (angleDiff h dir)) 40
  | None => false
  end.

Definition westerlyVoteCount (flights : list Flight.t) : nat :=
  List.length (filter (votesFor 250) flights).

Definition easterlyVoteCount (flights : list Flight.t) : nat :=
  List.length (filter (votesFor 70) flights).

(** ** Scoring and the batch *)

(** The state of the loop once a runway has been scored: the best score
    is a number, the best runway is set, and no recorded score is below
    the best one. *)
Definition scored (st : Scoring) : Prop :=
  exists b id,
    bestScore st = Fin b /\ bestRunway st = Some id /\
    Forall (fun s => b <= s) (values (scores st)).

(** What [runPredictions] leaves in a flight: not arriving, no runway
    and confidence 0; or arriving, with a runway. *)
Definition predictedWhenArriving (f : Flight.t) : Prop :=
  (Flight.isArriving f = Some false /\
   Flight.predictedRunway f = Some None /\
   Flight.confidence f = Some (Num 0)) \/
  (Flight.isArriving f = Some true /\
   exists id, Flight.predictedRunway f = Some (Some id)).

(** The flight without the two properties the second loop writes. *)
Definition clearPrediction (f : Flight.t) : Flight.t :=
  {| Flight.icao24 := Flight.icao24 f;
     Flight.longitude := Flight.longitude f;
     Flight.latitude := Flight.latitude f;
     Flight.baroAltitude := Flight.baroAltitude f;
     Flight.heading := Flight.heading f;
     Flight.verticalRate := Flight.verticalRate f;
     Flight.distanceToAirport := Flight.distanceToAirport f;
     Flight.isDeparting := Flight.isDeparting f;
     Flight.isArriving := Flight.isArriving f;
     Flight.predictedRunway := None;
     Flight.confidence := None |}.

(** ** The choice of [predictRunway] *)

(** The cross-track distance from the flight to the centerline of a
    runway, and the score the loop of [predictRunway] gives the runway. *)
Definition crossTrackTo (flight : Flight.t) (rwyName : RunwayId) : R :=
  crossTrackDistance
    (Flight.latitude flight) (Flight.longitude flight)
    (lat (Runway.threshold (RUNWAYS rwyName)))
    (lng (Runway.threshold (RUNWAYS rwyName)))
    (lat (Runway.opposite (RUNWAYS rwyName)))
    (lng (Runway.opposite (RUNWAYS rwyName))).

Definition runwayScore (flight : Flight.t) (rwyName : RunwayId) : R :=
  crossTrackTo flight rwyName +
  Rabs (angleDiff (JS.ofNull (Flight.heading flight))
                  (Runway.heading (RUNWAYS rwyName))) / 180 * 5.

(** [id] is the first of the runways [rwys] with the least [score]:
    every runway before it scores more, every runway after it scores at
    least as much. *)
Definition firstMinimum (score : RunwayId -> R) (rwys : list RunwayId)
    (id : RunwayId) : Prop :=
  exists before after,
    rwys = before ++ id :: after /\
    Forall (fun r => score id < score r) before /\
    Forall (fun r => score id <= score r) after.

(** The variables of the scoring loop after the runways [done]. *)
Definition scoredSoFar (flight : Flight.t) (done : list RunwayId)
    (st : Scoring) : Prop :=
  (done = [] /\ bestScore st = Infinity /\ bestRunway st = None) \/
  (exists id,
     bestRunway st = Some id /\
     bestScore st = Fin (runwayScore flight id) /\
     firstMinimum (runwayScore flight) done id).

(** A flight 60 km out that a run has classified as arriving. *)
Definition farOut : Flight.t :=
  {| Flight.icao24 := "3c644b";
     Flight.longitude := 9.39;
     Flight.latitude := 50.12;
     Flight.baroAltitude := Some 3000;
     Flight.heading := Some 249;
     Flight.verticalRate := Some (-5);
     Flight.distanceToAirport := Some 60;
     Flight.isDeparting := Some false;
     Flight.isArriving := Some true;
     Flight.predictedRunway := None;
     Flight.confidence := None |}.

(** ** The sidebar list and the markers *)

(** The flights the two filters of [renderFlightList] keep. *)
Definition selectedBy (search : option (Flight.t -> bool)) (f : Flight.t)
    : bool :=
  isListed f &&
  match search with
  | Some matches => matches f
  | None => true
  end.

(** [a] is listed no later than [b]: its key is not the greater one. *)
Definition nearerFirst (a b : Flight.t) : Prop := sortKey a <= sortKey b.

(** The flights whose key is [k]. *)
Definition keyIs (k : R) (f : Flight.t) : bool :=
  if Req_dec_T (sortKey f) k then true else false.

(** The last flight of a batch with a given [icao24]. *)
Definition lastFlightOf (icao : string) (flightData : list Flight.t)
    : option Flight.t :=
  find (fun f => String.eqb (Flight.icao24 f) icao) (rev flightData).

(** ** Flights used as examples *)

(** A flight due south of the airport, 10 km away, as [fetchFlights]
    would build it. *)
Definition southOfField : Flight.t :=
  {| Flight.icao24 := "3c6444";
     Flight.longitude := lng FRA;
     Flight.latitude := lat FRA - toDeg (10 / 6371);
     Flight.baroAltitude := Some 1000;
     Flight.heading := Some 250;
     Flight.verticalRate := Some (-3);
     Flight.distanceToAirport := None;
     Flight.isDeparting := None;
     Flight.isArriving := None;
     Flight.predictedRunway := None;
     Flight.confidence := None |}.

(** A flight with the same altitude, heading and vertical rate, east of
    the airport, with [distanceToAirport] set to 10 (its distance is
    close to that). *)
Definition eastOfField : Flight.t :=
  {| Flight.icao24 := "3c6445";
     Flight.longitude := 8.6979;
     Flight.latitude := lat FRA;
     Flight.baroAltitude := Some 1000;
     Flight.heading := Some 250;
     Flight.verticalRate := Some (-3);
     Flight.distanceToAirport := Some 10;
     Flight.isDeparting := None;
     Flight.isArriving := None;
     Flight.predictedRunway := None;
     Flight.confidence := None |}.

(** A flight that a run has classified as arriving. *)
Definition onFinal : Flight.t :=
  {| Flight.icao24 := "3c6446";
     Flight.longitude := 8.6979;
     Flight.latitude := 50.0712;
     Flight.baroAltitude := Some 900;
     Flight.heading := Some 249;
     Flight.verticalRate := Some (-4);
     Flight.distanceToAirport := Some 11;
     Flight.isDeparting := Some false;
     Flight.isArriving := Some true;
     Flight.predictedRunway := None;
     Flight.confidence := None |}.

(** A flight 10 km away at 1000 m, rising slowly, on heading 205:
    exactly 25 degrees off the runway direction 180. *)
Definition edgeOfRule3 : Flight.t :=
  {| Flight.icao24 := "3c6449";
     Flight.longitude := 8.53;
     Flight.latitude := 49.94;
     Flight.baroAltitude := Some 1000;
     Flight.heading := Some 205;
     Flight.verticalRate := Some 0.3;
     Flight.distanceToAirport := Some 10;
     Flight.isDeparting := None;
     Flight.isArriving := None;
     Flight.predictedRunway := None;
     Flight.confidence := None |}.

(** A flight due north of the airport at 2500 m, rising at 1.5 m/s,
    on heading 40: exactly 40 degrees off the bearing from the airport. *)
Definition edgeOfRule4 : Flight.t :=
  {| Flight.icao24 := "3c644a";
     Flight.longitude := lng FRA;
     Flight.latitude := lat FRA + 0.18;
     Flight.baroAltitude := Some 2500;
     Flight.heading := Some 40;
     Flight.verticalRate := Some 1.5;
     Flight.distanceToAirport := Some 20;
     Flight.isDeparting := None;
     Flight.isArriving := None;
     Flight.predictedRunway := None;
     Flight.confidence := None |}.

(** A flight climbing out: 10 km away at 1000 m, rising at 3 m/s, its
    heading unknown. *)
Definition climbingOut : Flight.t :=
  {| Flight.icao24 := "3c6447";
     Flight.longitude := 8.42;
     Flight.latitude := 50.03;
     Flight.baroAltitude := Some 1000;
     Flight.heading := None;
     Flight.verticalRate := Some 3;
     Flight.distanceToAirport := Some 10;
     Flight.isDeparting := None;
     Flight.isArriving := None;
     Flight.predictedRunway := None;
     Flight.confidence := None |}.

(** A flight descending on heading 70, 20 km away. *)
Definition easterlyArrival : Flight.t :=
  {| Flight.icao24 := "3c6448";
     Flight.longitude := 8.29;
     Flight.latitude := 49.97;
     Flight.baroAltitude := Some 1500;
     Flight.heading := Some 70;
     Flight.verticalRate := Some (-4);
     Flight.distanceToAirport := Some 20;
     Flight.isDeparting := Some false;
     Flight.isArriving := Some true;
     Flight.predictedRunway := None;
     Flight.confidence := None |}.

(** A flight on short final: 4 km out at 300 m, descending on the
    runway heading. *)
Definition shortFinal : Flight.t :=
  {| Flight.icao24 := "3c644c";
     Flight.longitude := 8.61;
     Flight.latitude := 50.04;
     Flight.baroAltitude := Some 300;
     Flight.heading := Some 249;
     Flight.verticalRate := Some (-3);
     Flight.distanceToAirport := Some 4;
     Flight.isDeparting := None;
     Flight.isArriving := None;
     Flight.predictedRunway := None;
     Flight.confidence := None |}.

(** The filter [runPredictions] applies before [detectConfiguration]. *)
Definition notDepartingOrArriving (f : Flight.t) : bool :=
  JS.truthy (Flight.isArriving f) || negb (JS.truthy (Flight.isDeparting f)).

(** * Properties *)

(** ** The comparisons *)

Lemma ltb_true (x y : R) : JS.ltb x y = true <-> x < y.
Proof.
  unfold JS.ltb. destruct (Rlt_dec x y); split; intros; try easy.
Qed.

Lemma ltb_false (x y : R) : JS.ltb x y = false <-> y <= x.
Proof.
  unfold JS.ltb. destruct (Rlt_dec x y); split; intros; try easy; lra.
Qed.

Lemma gtb_true (x y : R) : JS.gtb x y = true <-> x > y.
Proof. unfold JS.gtb. rewrite ltb_true. lra. Qed.

Lemma gtb_false (x y : R) : JS.gtb x y = false <-> x <= y.
Proof. unfold JS.gtb. apply ltb_false. Qed.

(** ** The remainder *)

Lemma trunc_nonneg (r : R) :
  0 <= r -> IZR (JS.trunc r) <= r < IZR (JS.trunc r) + 1.
Proof.
  intros Hr. unfold JS.trunc. destruct (Rle_dec 0 r) as [_|]; [|lra].
  destruct (base_Int_part r). lra.
Qed.

Lemma trunc_neg (r : R) :
  r < 0 -> IZR (JS.trunc r) - 1 < r <= IZR (JS.trunc r).
Proof.
  intros Hr. unfold JS.trunc. destruct (Rle_dec 0 r); [lra|].
  rewrite opp_IZR. destruct (base_Int_part (- r)). lra.
Qed.

(** A quotient known to lie in [[z, z+1)] or [(z-1, z]] on the side of
    zero where truncation rounds down or up. *)
Lemma trunc_unique_nonneg (r : R) (z : Z) :
  0 <= r -> IZR z <= r < IZR z + 1 -> JS.trunc r = z.
Proof.
  intros Hr Hz. unfold JS.trunc. destruct (Rle_dec 0 r); [|lra].
  symmetry. apply Int_part_spec. lra.
Qed.

Lemma trunc_small_neg (r : R) : -1 < r < 0 -> JS.trunc r = 0%Z.
Proof.
  intros Hr. unfold JS.trunc. destruct (Rle_dec 0 r); [lra|].
  rewrite <- (Int_part_spec (- r) 0); [reflexivity | lra].
Qed.

Lemma rem_nonneg (n d : R) :
  0 < d -> 0 <= n -> 0 <= JS.rem n d < d.
Proof.
  intros Hd Hn. unfold JS.rem.
  assert (Hq : 0 <= n / d) by (apply Rmult_le_pos; [lra | left; now apply Rinv_0_lt_compat]).
  destruct (trunc_nonneg _ Hq) as [H1 H2].
  assert (Hnd : n = d * (n / d)) by (field; lra).
  split.
  - apply Rmult_le_compat_l with (r := d) in H1; lra.
  - apply Rmult_lt_compat_l with (r := d) in H2; lra.
Qed.

Lemma rem_neg (n d : R) :
  0 < d -> n < 0 -> - d < JS.rem n d <= 0.
Proof.
  intros Hd Hn. unfold JS.rem.
  assert (Hq : n / d < 0).
  { unfold Rdiv. rewrite <- (Rmult_0_l (/ d)).
    apply Rmult_lt_compat_r; [now apply Rinv_0_lt_compat | lra]. }
  destruct (trunc_neg _ Hq) as [H1 H2].
  assert (Hnd : n = d * (n / d)) by (field; lra).
  split.
  - apply Rmult_lt_compat_l with (r := d) in H1; lra.
  - apply Rmult_le_compat_l with (r := d) in H2; lra.
Qed.

Lemma rem_abs_lt (n d : R) : 0 < d -> - d < JS.rem n d < d.
Proof.
  intros Hd. destruct (Rle_lt_dec 0 n) as [Hn|Hn].
  - pose proof (rem_nonneg n d Hd Hn). lra.
  - pose proof (rem_neg n d Hd Hn). lra.
Qed.

(** The remainder of a dividend in [[q*d, (q+1)*d)], [q] a natural number. *)
Lemma rem_eq (n d : R) (q : Z) :
  0 < d -> 0 <= n -> IZR q * d <= n < (IZR q + 1) * d ->
  JS.rem n d = n - d * IZR q.
Proof.
  intros Hd Hn Hq. unfold JS.rem.
  assert (Hnd : n = d * (n / d)) by (field; lra).
  rewrite (trunc_unique_nonneg (n / d) q); [reflexivity | |].
  - apply Rmult_le_pos; [lra | left; now apply Rinv_0_lt_compat].
  - split.
    + apply Rmult_le_reg_l with (r := d); lra.
    + apply Rmult_lt_reg_l with (r := d); lra.
Qed.

(** ** [angleDiff] *)

Lemma angleDiff_bounds (a b : R) : -180 <= angleDiff a b < 180.
Proof.
  unfold angleDiff.
  pose proof (rem_abs_lt (a - b + 180) 360 ltac:(lra)) as Hr.
  destruct (JS.ltb (JS.rem (a - b + 180) 360 - 180) (-180)) eqn:E.
  - apply ltb_true in E. lra.
  - apply ltb_false in E. lra.
Qed.

Lemma angleDiff_350_10 : angleDiff 350 10 = -20.
Proof.
  unfold angleDiff.
  rewrite (rem_eq (350 - 10 + 180) 360 1) by lra.
  destruct (JS.ltb _ _) eqn:E.
  - apply ltb_true in E. lra.
  - lra.
Qed.

(** [angleDiff] where [a - b + 180] is not negative: no correction. *)
Lemma angleDiff_eq (a b : R) (q : Z) :
  0 <= a - b + 180 ->
  IZR q * 360 <= a - b + 180 < (IZR q + 1) * 360 ->
  angleDiff a b = a - b - 360 * IZR q.
Proof.
  intros H0 Hq. unfold angleDiff. rewrite (rem_eq _ 360 q) by lra.
  destruct (JS.ltb _ _) eqn:E; [apply ltb_true in E|]; lra.
Qed.

(** [angleDiff] where [a - b + 180] is negative, above [-360]: the
    remainder is negative and a turn is added. *)
Lemma angleDiff_eq_neg (a b : R) :
  -360 < a - b + 180 < 0 -> angleDiff a b = a - b + 360.
Proof.
  intros H. unfold angleDiff, JS.rem.
  rewrite (trunc_small_neg ((a - b + 180) / 360)) by lra.
  destruct (JS.ltb _ _) eqn:E; [|apply ltb_false in E]; lra.
Qed.

(** C8: for all angles [a] and [b], [angleDiff a b] lies in the closed
    interval [[-180, 180]], and [angleDiff 350 10] is [-20]. *)
Theorem angleDiff_range :
  (forall a b : R, -180 <= angleDiff a b <= 180) /\ angleDiff 350 10 = -20.
Proof.
  split.
  - intros a b. pose proof (angleDiff_bounds a b). lra.
  - exact angleDiff_350_10.
Qed.

(** ** [haversine] *)

Lemma toRad_0 : toRad 0 = 0.
Proof. unfold toRad. lra. Qed.

Lemma toRad_toDeg (x : R) : toRad (toDeg x) = x.
Proof. unfold toRad, toDeg. field. apply PI_neq0. Qed.

Lemma toRad_minus (x y : R) : toRad (x - y) = toRad x - toRad y.
Proof. unfold toRad. lra. Qed.

Lemma toDeg_0 : toDeg 0 = 0.
Proof. unfold toDeg, Rdiv. ring. Qed.

Lemma haversine_unfold (lat1 lon1 lat2 lon2 : R) :
  haversine lat1 lon1 lat2 lon2 =
  6371 * 2 * JS.atan2 (sqrt (haversineA lat1 lon1 lat2 lon2))
                      (sqrt (1 - haversineA lat1 lon1 lat2 lon2)).
Proof. reflexivity. Qed.

Lemma sin_half_sqr_swap (x y : R) :
  sin (toRad (x - y) / 2) ^ 2 = sin (toRad (y - x) / 2) ^ 2.
Proof.
  replace (toRad (x - y) / 2) with (- (toRad (y - x) / 2))
    by (unfold toRad; lra).
  rewrite sin_neg. ring.
Qed.

Lemma haversineA_sym (lat1 lon1 lat2 lon2 : R) :
  haversineA lat1 lon1 lat2 lon2 = haversineA lat2 lon2 lat1 lon1.
Proof.
  unfold haversineA.
  rewrite (sin_half_sqr_swap lat2 lat1), (sin_half_sqr_swap lon2 lon1).
  ring.
Qed.

Lemma haversineA_same (la lo : R) : haversineA la lo la lo = 0.
Proof.
  unfold haversineA.
  replace (la - la) with 0 by ring. replace (lo - lo) with 0 by ring.
  rewrite toRad_0. replace (0 / 2) with 0 by lra. rewrite sin_0. ring.
Qed.

Lemma atan2_0_1 : JS.atan2 0 1 = 0.
Proof.
  unfold JS.atan2. destruct (Rlt_dec 0 1); [|lra].
  replace (0 / 1) with 0 by lra. apply atan_0.
Qed.

(** C9: [haversine] is symmetric in its two points, and the distance
    from a point to itself is 0. *)
Theorem haversine_symmetric_zero :
  (forall lat1 lon1 lat2 lon2 : R,
     haversine lat1 lon1 lat2 lon2 = haversine lat2 lon2 lat1 lon1) /\
  (forall la lo : R, haversine la lo la lo = 0).
Proof.
  split.
  - intros. rewrite !haversine_unfold.
    now rewrite (haversineA_sym lat1 lon1 lat2 lon2).
  - intros. rewrite haversine_unfold, haversineA_same.
    replace (1 - 0) with 1 by ring.
    rewrite sqrt_0, sqrt_1, atan2_0_1. ring.
Qed.

(** ** The functions stay inside the model

    In JavaScript [Math.sqrt] of a negative number and [Math.asin] of a
    number outside [[-1, 1]] are [NaN].  Neither case arises in
    [haversine] and [crossTrackDistance], whatever the coordinates. *)

Lemma sin_half_sqr (x : R) : sin (x / 2) ^ 2 = (1 - cos x) / 2.
Proof.
  pose proof (cos_2a_sin (x / 2)) as H.
  replace (2 * (x / 2)) with x in H by lra. lra.
Qed.

Lemma haversineA_range (lat1 lon1 lat2 lon2 : R) :
  0 <= haversineA lat1 lon1 lat2 lon2 <= 1.
Proof.
  unfold haversineA. rewrite !sin_half_sqr, toRad_minus.
  assert (E : cos (toRad lat1) * cos (toRad lat2) =
              (cos (toRad lat2 - toRad lat1) +
               cos (toRad lat2 + toRad lat1)) / 2)
    by (rewrite cos_minus, cos_plus; lra).
  rewrite E.
  pose proof (COS_bound (toRad lat2 - toRad lat1)).
  pose proof (COS_bound (toRad lat2 + toRad lat1)).
  pose proof (COS_bound (toRad (lon2 - lon1))).
  set (cd := cos (toRad lat2 - toRad lat1)) in *.
  set (cs := cos (toRad lat2 + toRad lat1)) in *.
  set (c := cos (toRad (lon2 - lon1))) in *.
  split; nra.
Qed.

Lemma sin_sin_range (x y : R) : -1 <= sin x * sin y <= 1.
Proof.
  pose proof (SIN_bound x). pose proof (SIN_bound y). split; nra.
Qed.

Lemma crossTrackDistance_nonneg (pLat pLon lat1 lon1 lat2 lon2 : R) :
  0 <= crossTrackDistance pLat pLon lat1 lon1 lat2 lon2.
Proof.
  unfold crossTrackDistance. cbv zeta.
  apply Rmult_le_pos; [apply Rabs_pos | lra].
Qed.


Lemma bearing_range (lat1 lon1 lat2 lon2 : R) :
  0 <= bearing lat1 lon1 lat2 lon2 < 360.
Proof.
  unfold bearing. cbv zeta.
  set (deg := toDeg _).
  pose proof (rem_abs_lt deg 360 ltac:(lra)).
  apply rem_nonneg; lra.
Qed.

(** ** A flight on the meridian of the airport *)

Lemma atan2_0_pos (x : R) : 0 < x -> JS.atan2 0 x = 0.
Proof.
  intros Hx. unfold JS.atan2. destruct (Rlt_dec 0 x); [|lra].
  unfold Rdiv. rewrite Rmult_0_l. apply atan_0.
Qed.

Lemma atan2_sin_cos (x : R) :
  0 <= x < PI / 2 -> JS.atan2 (sin x) (cos x) = x.
Proof.
  intros Hx. pose proof PI_RGT_0.
  assert (Hc : 0 < cos x) by (apply cos_gt_0; lra).
  unfold JS.atan2. destruct (Rlt_dec 0 (cos x)); [|lra].
  change (sin x / cos x) with (tan x). apply atan_tan. lra.
Qed.

(** Along a meridian the distance is the radius times the difference of
    latitude. *)
Lemma haversine_meridian (lat1 lat2 lon : R) :
  0 <= toRad (lat2 - lat1) < PI ->
  haversine lat1 lon lat2 lon = 6371 * toRad (lat2 - lat1).
Proof.
  intros Hd. rewrite haversine_unfold. unfold haversineA.
  replace (lon - lon) with 0 by ring. rewrite toRad_0.
  replace (0 / 2) with 0 by lra. rewrite sin_0.
  set (x := toRad (lat2 - lat1) / 2).
  assert (Hx : 0 <= x < PI / 2) by (unfold x; lra).
  pose proof PI_RGT_0.
  assert (Hs : 0 <= sin x) by (apply sin_ge_0; lra).
  assert (Hc : 0 <= cos x) by (apply cos_ge_0; lra).
  replace (sin x ^ 2 + cos (toRad lat1) * cos (toRad lat2) * 0 ^ 2)
    with (sin x ^ 2) by ring.
  replace (1 - sin x ^ 2) with (cos x ^ 2)
    by (pose proof (sin2_cos2 x) as E; unfold Rsqr in E; lra).
  rewrite !sqrt_pow2 by assumption.
  rewrite atan2_sin_cos by assumption. unfold x. lra.
Qed.

(** From a point due south of another, less than half a turn away, the
    bearing to the other is 0. *)
Lemma bearing_due_north (lat1 lat2 lon : R) :
  0 < toRad (lat2 - lat1) < PI ->
  bearing lat1 lon lat2 lon = 0.
Proof.
  intros Hd. unfold bearing. cbv zeta.
  replace (lon - lon) with 0 by ring. rewrite toRad_0, sin_0, cos_0.
  replace (0 * cos (toRad lat2)) with 0 by ring.
  replace (cos (toRad lat1) * sin (toRad lat2) -
           sin (toRad lat1) * cos (toRad lat2) * 1)
    with (sin (toRad (lat2 - lat1)))
    by (rewrite toRad_minus, sin_minus; ring).
  rewrite atan2_0_pos by (apply sin_gt_0; lra).
  rewrite toDeg_0.
  rewrite (rem_eq 0 360 0) by lra.
  rewrite (rem_eq _ 360 1) by lra. lra.
Qed.

(** ** [isDeparting] *)

Lemma if_true_else (a b : bool) : (if a then true else b) = a || b.
Proof. now destruct a. Qed.

Ltac bool_to_prop :=
  repeat (rewrite ?orb_true_iff, ?andb_true_iff, ?negb_true_iff,
                  ?ltb_true, ?gtb_true, ?ltb_false, ?gtb_false).

Lemma ex_some {A : Type} (v : A) (P : A -> Prop) :
  (exists x, Some v = Some x /\ P x) <-> P v.
Proof.
  split.
  - intros [x [[= <-] H]]. exact H.
  - intros H. now exists v.
Qed.

Lemma ex_none {A : Type} (P : A -> Prop) :
  (exists x, @None A = Some x /\ P x) <-> False.
Proof. split; [intros [x [[=] _]] | tauto]. Qed.

Lemma isDeparting_known (f : Flight.t) (dist alt : R) :
  Flight.distanceToAirport f = Some dist ->
  Flight.baroAltitude f = Some alt ->
  (isDeparting f = true <->
   departureRule1 f dist alt \/ departureRule2 f dist alt \/
   departureRule3 f dist alt \/ departureRule4 f dist alt).
Proof.
  intros Hd Ha.
  unfold isDeparting, departureRule1, departureRule2, departureRule3,
    departureRule4, vrAbove, headingNear.
  rewrite Hd, Ha. cbv zeta.
  rewrite !if_true_else, orb_false_r.
  destruct (Flight.verticalRate f) as [vr|], (Flight.heading f) as [h|];
    cbn [JS.notNull JS.ofNull]; bool_to_prop;
    rewrite ?ex_some, ?ex_none; intuition congruence.
Qed.

(** C4, as the code has it: [isDeparting] returns false when the
    distance or the altitude is unknown; otherwise it returns true exactly
    when one of the four rules matches, where rules 3 and 4 ask for a
    heading less than 25 and less than 40 degrees away (a difference of
    exactly 25 or 40 degrees does not match), and a rule whose heading or
    vertical rate is unknown does not match. *)
Theorem isDeparting_rules (f : Flight.t) :
  (isDeparting f = true <->
   exists dist alt,
     Flight.distanceToAirport f = Some dist /\
     Flight.baroAltitude f = Some alt /\
     (departureRule1 f dist alt \/ departureRule2 f dist alt \/
      departureRule3 f dist alt \/ departureRule4 f dist alt)) /\
  (Flight.distanceToAirport f = None \/ Flight.baroAltitude f = None ->
   isDeparting f = false).
Proof.
  split.
  - destruct (Flight.distanceToAirport f) as [dist|] eqn:Hd.
    + destruct (Flight.baroAltitude f) as [alt|] eqn:Ha.
      * rewrite (isDeparting_known f dist alt Hd Ha). split.
        -- intros H. now exists dist, alt.
        -- intros [d [a [[= <-] [[= <-] H]]]]. exact H.
      * unfold isDeparting. rewrite Hd, Ha. split; [discriminate|].
        intros [d [a [_ [[=] _]]]].
    + unfold isDeparting. rewrite Hd. split; [discriminate|].
      intros [d [a [[=] _]]].
  - unfold isDeparting. intros [H|H]; rewrite H; [reflexivity|].
    now destruct (Flight.distanceToAirport f).
Qed.

Lemma isDeparting_rules_witness : isDeparting southOfField = false.
Proof.
  exact (proj2 (isDeparting_rules southOfField) (or_introl eq_refl)).
Defined.

Lemma edgeOfRule4_bearing :
  bearing (lat FRA) (lng FRA)
          (Flight.latitude edgeOfRule4) (Flight.longitude edgeOfRule4) = 0.
Proof.
  change (Flight.latitude edgeOfRule4) with (lat FRA + 0.18).
  change (Flight.longitude edgeOfRule4) with (lng FRA).
  apply bearing_due_north.
  replace (lat FRA + 0.18 - lat FRA) with 0.18 by ring.
  pose proof PI_RGT_0. unfold toRad. lra.
Qed.

(** C4, as stated, fails on the edge of rules 3 and 4.  [edgeOfRule3]
    is within 25 degrees of 180 and [edgeOfRule4] within 40 degrees of
    the bearing from the airport, so the rules read with "within" match;
    [isDeparting] compares with [<] and returns false for both. *)
Lemma isDeparting_rules_counterexample :
  (withinRulesMatch edgeOfRule3 /\ isDeparting edgeOfRule3 = false) /\
  (withinRulesMatch edgeOfRule4 /\ isDeparting edgeOfRule4 = false).
Proof.
  assert (E180 : angleDiff 205 180 = 25)
    by (rewrite (angleDiff_eq 205 180 0); lra).
  assert (E360 : angleDiff 205 360 = -155)
    by (rewrite (angleDiff_eq 205 360 0); lra).
  assert (F180 : angleDiff 40 180 = -140)
    by (rewrite (angleDiff_eq 40 180 0); lra).
  assert (F360 : angleDiff 40 360 = 40)
    by (rewrite angleDiff_eq_neg; lra).
  assert (F0 : angleDiff 40 0 = 40)
    by (rewrite (angleDiff_eq 40 0 0); lra).
  split; split.
  - exists 10, 1000. repeat split.
    right; right; left. unfold withinRule3, headingWithin, within, vrAbove.
    repeat split; try lra.
    + left. exists 205. split; [reflexivity|].
      rewrite E180, Rabs_right; lra.
    + exists 0.3. split; [reflexivity | lra].
  - destruct (isDeparting edgeOfRule3) eqn:E; [|reflexivity]. exfalso.
    apply (isDeparting_known edgeOfRule3 10 1000 eq_refl eq_refl) in E.
    unfold departureRule1, departureRule2, departureRule3, departureRule4,
      vrAbove, headingNear in E.
    cbn [edgeOfRule3 Flight.verticalRate Flight.heading] in E.
    rewrite !ex_some in E. rewrite E180, E360 in E.
    rewrite (Rabs_right 25), (Rabs_left (-155)) in E by lra.
    intuition lra.
  - exists 20, 2500. repeat split.
    right; right; right. unfold withinRule4, headingWithin, within, vrAbove.
    repeat split; try lra.
    + exists 1.5. split; [reflexivity | lra].
    + exists 40. split; [reflexivity|].
      rewrite edgeOfRule4_bearing, F0, Rabs_right; lra.
  - destruct (isDeparting edgeOfRule4) eqn:E; [|reflexivity]. exfalso.
    apply (isDeparting_known edgeOfRule4 20 2500 eq_refl eq_refl) in E.
    unfold departureRule1, departureRule2, departureRule3, departureRule4,
      vrAbove, headingNear in E.
    rewrite edgeOfRule4_bearing in E.
    cbn [edgeOfRule4 Flight.verticalRate Flight.heading] in E.
    rewrite !ex_some in E. rewrite F180, F360, F0 in E.
    rewrite (Rabs_right 40), (Rabs_left (-140)) in E by lra.
    intuition lra.
Qed.

(** ** [isArriving] *)

Lemma if_false_else (a b : bool) : (if a then false else b) = negb a && b.
Proof. now destruct a. Qed.

Lemma if_then_else_true (a b : bool) :
  (if a then b else true) = negb a || b.
Proof. now destruct a. Qed.

Lemma isArriving_true_iff (f : Flight.t) :
  isArriving f = true <-> ~ arrivalExcluded f /\ arrivalAligned f.
Proof.
  unfold arrivalExcluded, arrivalAligned, within, distAbove, altAbove,
    vrAbove, isArriving.
  destruct (Flight.baroAltitude f) as [alt|];
    [|split; [discriminate | intros [H _]; exfalso; apply H; now left]].
  destruct (Flight.heading f) as [h|];
    [|split; [discriminate | intros [H _]; exfalso; apply H; right; now left]].
  cbv zeta. rewrite !if_false_else, if_then_else_true, andb_true_r.
  destruct (isDeparting f);
    [ rewrite andb_false_l, !andb_false_r; split;
      [discriminate | intros [H _]; exfalso; apply H; tauto] |].
  unfold ARRIVING_MAX_DIST, ARRIVING_MAX_ALT.
  destruct (Flight.distanceToAirport f) as [d|],
           (Flight.verticalRate f) as [vr|];
    cbn [JS.notNull JS.ofNull JS.gtb_undef negb andb orb];
    rewrite ?ex_some, ?ex_none;
    repeat (rewrite ?andb_true_iff, ?orb_true_iff, ?negb_true_iff,
                    ?andb_false_iff, ?gtb_true, ?gtb_false).
  all: split;
    [ intros H; split;
      [ intros Hx; decompose [and or] Hx; try discriminate;
        try contradiction; lra
      | intuition (try lra) ]
    | intros [Hx Ha]; decompose [and] Ha;
      repeat split;
      try (apply Rnot_gt_le; intro; apply Hx; tauto);
      try assumption; try reflexivity ].
  all: destruct (Rle_lt_dec d 5); [now left | right; auto].
Qed.

(** C3: [isArriving] is false when the altitude or the heading is
    unknown, the distance is above 80 km, the altitude is above 4000 m,
    [isDeparting] holds, or a known vertical rate is above 3 m/s;
    otherwise it is true exactly when the heading is within 50 degrees of
    249 or of 69 and, for a distance above 5 km, within 70 degrees of
    the bearing from the aircraft to the airport.  "Within" is read as a
    difference of at most that many degrees. *)
Theorem isArriving_spec (f : Flight.t) :
  isArriving f = true <-> ~ arrivalExcluded f /\ arrivalAligned f.
Proof. exact (isArriving_true_iff f). Qed.

(** ** [detectConfiguration] *)

Lemma isCandidate_eligible (f : Flight.t) : isCandidate f = eligible f.
Proof.
  unfold isCandidate, eligible, ARRIVING_MAX_ALT, ARRIVING_MAX_DIST.
  destruct (Flight.baroAltitude f), (Flight.heading f),
    (Flight.verticalRate f), (Flight.distanceToAirport f);
    cbn [JS.notNull JS.ofNull JS.ltb_undef andb];
    rewrite ?andb_true_r, ?andb_false_r; reflexivity.
Qed.

(** The counters after the loop: each has grown by the number of
    flights that were less than 40 degrees away from its direction. *)
Lemma castVotes_fold (l : list Flight.t) (w e : nat) :
  fold_left castVotes l (w, e) =
  ((w + List.length
          (filter (fun f => JS.ltb (Rabs (angleDiff (JS.ofNull (Flight.heading f)) 250)) 40) l))%nat,
   (e + List.length
          (filter (fun f => JS.ltb (Rabs (angleDiff (JS.ofNull (Flight.heading f)) 70)) 40) l))%nat).
Proof.
  revert w e. induction l as [|f l IH]; intros w e; cbn [fold_left filter].
  - now rewrite !Nat.add_0_r.
  - unfold castVotes at 2. rewrite IH.
    destruct (JS.ltb (Rabs (angleDiff _ 250)) 40),
             (JS.ltb (Rabs (angleDiff _ 70)) 40);
      cbn [List.length]; f_equal; lia.
Qed.

Lemma filter_filter_length {A : Type} (p q : A -> bool) (l : list A) :
  List.length (filter q (filter p l)) =
  List.length (filter (fun x => p x && q x) l).
Proof.
  induction l as [|x l IH]; [reflexivity|].
  cbn [filter]. destruct (p x); cbn [filter andb]; [|exact IH].
  destruct (q x); cbn [List.length]; now rewrite IH.
Qed.

Lemma candidate_votes_count (dir : R) (flights : list Flight.t) :
  List.length
    (filter (fun f => JS.ltb (Rabs (angleDiff (JS.ofNull (Flight.heading f)) dir)) 40)
            (filter isCandidate flights)) =
  List.length (filter (votesFor dir) flights).
Proof.
  rewrite filter_filter_length. f_equal. apply filter_ext. intros f.
  rewrite isCandidate_eligible. unfold votesFor, eligible.
  destruct (Flight.baroAltitude f), (Flight.heading f); reflexivity.
Qed.

Lemma no_candidate_no_vote (dir : R) (flights : list Flight.t) :
  filter isCandidate flights = [] ->
  List.length (filter (votesFor dir) flights) = 0%nat.
Proof.
  intros H. rewrite <- candidate_votes_count, H. reflexivity.
Qed.

Lemma detectConfiguration_westerly_iff (flights : list Flight.t) :
  detectConfiguration flights = westerly <->
  (easterlyVoteCount flights <= westerlyVoteCount flights)%nat.
Proof.
  unfold detectConfiguration, easterlyVoteCount, westerlyVoteCount.
  destruct (Nat.eqb (List.length (filter isCandidate flights)) 0) eqn:E.
  - apply Nat.eqb_eq, length_zero_iff_nil in E.
    rewrite !(no_candidate_no_vote _ _ E). split; [lia | reflexivity].
  - rewrite castVotes_fold, !candidate_votes_count. cbn [Nat.add].
    destruct (Nat.leb _ _) eqn:L.
    + apply Nat.leb_le in L. tauto.
    + apply Nat.leb_gt in L. split; [discriminate | lia].
Qed.

(** C5: [detectConfiguration] answers westerly exactly when the westerly
    votes are at least as many as the easterly votes, and so in
    particular when no flight is eligible to vote. *)
Theorem detectConfiguration_votes (flights : list Flight.t) :
  (detectConfiguration flights = westerly <->
   (easterlyVoteCount flights <= westerlyVoteCount flights)%nat) /\
  (filter eligible flights = [] -> detectConfiguration flights = westerly).
Proof.
  split; [apply detectConfiguration_westerly_iff|].
  intros H. apply detectConfiguration_westerly_iff.
  unfold easterlyVoteCount, westerlyVoteCount.
  assert (Hc : filter isCandidate flights = []).
  { rewrite <- H. apply filter_ext, isCandidate_eligible. }
  rewrite !(no_candidate_no_vote _ _ Hc). lia.
Qed.

Lemma detectConfiguration_votes_witness :
  detectConfiguration [climbingOut] = westerly.
Proof. exact (proj2 (detectConfiguration_votes [climbingOut]) eq_refl). Defined.

(** ** The scoring loop *)

Lemma values_setProp (P : R -> Prop) (l : list (RunwayId * R))
    (key : RunwayId) (value : R) :
  Forall P (values l) -> P value -> Forall P (values (setProp l key value)).
Proof.
  unfold values. intros Hl Hv.
  induction l as [|[k v] l IH]; cbn [setProp map snd].
  - now constructor.
  - inversion Hl as [|? ? Hk Hrest]; subst.
    destruct (RunwayId_eq_dec k key); cbn [map snd]; constructor; auto.
Qed.

Lemma scoreRunway_first (flight : Flight.t) (rwyName : RunwayId) :
  scored (scoreRunway flight initScoring rwyName).
Proof.
  unfold scoreRunway, initScoring, scored.
  cbn [bestScore belowBest scores setProp bestRunway values map snd].
  eexists; eexists; repeat split. constructor; [lra | constructor].
Qed.

Lemma scoreRunway_scored (flight : Flight.t) (st : Scoring)
    (rwyName : RunwayId) :
  scored st -> scored (scoreRunway flight st rwyName).
Proof.
  intros (b & id & Hb & Hid & Hall).
  unfold scoreRunway. cbv zeta.
  set (score := _ + _ * 5). rewrite Hb. cbn [belowBest].
  destruct (JS.ltb score b) eqn:E; unfold scored; cbn [bestScore bestRunway scores].
  - apply ltb_true in E. exists score, rwyName. repeat split.
    apply values_setProp; [|lra].
    eapply Forall_impl; [|exact Hall]. cbv beta. intros; lra.
  - apply ltb_false in E. exists b, id. repeat split; [assumption|].
    now apply values_setProp.
Qed.

Lemma fold_scored (flight : Flight.t) (l : list RunwayId) (st : Scoring) :
  scored st -> scored (fold_left (scoreRunway flight) l st).
Proof.
  revert st. induction l as [|r l IH]; intros st H; cbn [fold_left]; auto.
  apply IH. now apply scoreRunway_scored.
Qed.

Lemma fold_scored_cons (flight : Flight.t) (r : RunwayId)
    (l : list RunwayId) :
  scored (fold_left (scoreRunway flight) (r :: l) initScoring).
Proof. cbn [fold_left]. apply fold_scored, scoreRunway_first. Qed.

(** Each configuration has a first runway, so the loop of
    [predictRunway] scores at least one. *)
Lemma CONFIGS_scored (flight : Flight.t) (config : Config) :
  scored (fold_left (scoreRunway flight) (CONFIGS config) initScoring).
Proof. destruct config; apply fold_scored_cons. Qed.

Lemma pickOtherScore_ge (scoreValues : list R) (best : R) :
  Forall (fun s => best <= s) scoreValues ->
  best <= pickOtherScore scoreValues best.
Proof.
  intros Hall. unfold pickOtherScore.
  destruct (find _ scoreValues) as [s|] eqn:E; [|lra].
  apply find_some in E. destruct E as [Hin _].
  rewrite Forall_forall in Hall. specialize (Hall _ Hin).
  destruct (Req_dec_T s 0); lra.
Qed.

(** ** [predictRunway] *)

Lemma predictRunway_not_arriving (f : Flight.t) (config : Config) :
  JS.truthy (Flight.isArriving f) = false ->
  predictRunway f config =
  {| Prediction.runway := None; Prediction.confidence := Num 0 |}.
Proof. intros H. unfold predictRunway. now rewrite H. Qed.

Lemma predictRunway_arriving (f : Flight.t) (config : Config) :
  JS.truthy (Flight.isArriving f) = true ->
  exists id v,
    predictRunway f config =
    {| Prediction.runway := Some id; Prediction.confidence := Num v |} /\
    0.3 <= v <= 1.
Proof.
  intros H. unfold predictRunway. rewrite H. cbn [negb]. cbv zeta.
  destruct (CONFIGS_scored f config) as (b & id & Hb & Hid & Hall).
  rewrite Hb, Hid.
  pose proof (pickOtherScore_ge _ _ Hall) as Hsep.
  set (other := pickOtherScore _ b) in *.
  eexists; eexists; split; [reflexivity|].
  repeat match goal with
         | |- context [if ?c then _ else _] => destruct c
         end;
    unfold Rmin; repeat destruct (Rle_dec _ _); lra.
Qed.

(** ** [runPredictions]: the predictions of a batch *)

Lemma predict_isArriving (config : Config) (f : Flight.t) :
  Flight.isArriving (predict config f) = Flight.isArriving f.
Proof. reflexivity. Qed.

Lemma predict_predictedRunway (config : Config) (f : Flight.t) :
  Flight.predictedRunway (predict config f) =
  Some (Prediction.runway (predictRunway f config)).
Proof. reflexivity. Qed.

Lemma predict_confidence (config : Config) (f : Flight.t) :
  Flight.confidence (predict config f) =
  Some (Prediction.confidence (predictRunway f config)).
Proof. reflexivity. Qed.

Lemma classify_isArriving (f : Flight.t) :
  exists b, Flight.isArriving (classify f) = Some b.
Proof. unfold classify. cbn. eexists. reflexivity. Qed.

(** Every flight of the batch [runPredictions] returns is the
    prediction, under one configuration, of a classified flight. *)
Lemma runPredictions_Forall (P : Flight.t -> Prop) :
  (forall config f, P (predict config (classify f))) ->
  forall g flights, Forall P (snd (runPredictions g flights)).
Proof.
  intros HP g flights. unfold runPredictions. cbn [snd].
  rewrite map_map. apply Forall_forall. intros f' Hin.
  apply in_map_iff in Hin. destruct Hin as [f [<- _]]. apply HP.
Qed.

(** C1: in a batch processed by [runPredictions], [predictedRunway] is
    [null] exactly when [isArriving] is false, and then [confidence] is 0;
    for a flight whose [isArriving] is true, [predictRunway] returns a
    runway, and for any other flight no runway and confidence 0. *)
Theorem predictedRunway_iff_arriving :
  (forall g flights,
     Forall predictedWhenArriving (snd (runPredictions g flights))) /\
  (forall f config,
     (JS.truthy (Flight.isArriving f) = true ->
      exists id, Prediction.runway (predictRunway f config) = Some id) /\
     (JS.truthy (Flight.isArriving f) = false ->
      predictRunway f config =
      {| Prediction.runway := None; Prediction.confidence := Num 0 |})).
Proof.
  split.
  - apply runPredictions_Forall. intros config f.
    unfold predictedWhenArriving.
    rewrite predict_isArriving, predict_predictedRunway, predict_confidence.
    destruct (classify_isArriving f) as [[|] Hb]; rewrite Hb.
    + right. split; [reflexivity|].
      destruct (predictRunway_arriving (classify f) config) as (id & v & -> & _).
      * now rewrite Hb.
      * now exists id.
    + left. rewrite predictRunway_not_arriving by now rewrite Hb.
      repeat split.
  - intros f config. split.
    + intros H.
      destruct (predictRunway_arriving f config H) as (id & v & -> & _).
      now exists id.
    + apply predictRunway_not_arriving.
Qed.

Lemma predictedRunway_iff_arriving_witness :
  exists id, Prediction.runway (predictRunway onFinal westerly) = Some id.
Proof.
  exact (proj1 (proj2 predictedRunway_iff_arriving onFinal westerly) eq_refl).
Defined.

Lemma predictRunway_confidence_range (f : Flight.t) (config : Config) :
  exists v,
    Prediction.confidence (predictRunway f config) = Num v /\ 0 <= v <= 1.
Proof.
  destruct (JS.truthy (Flight.isArriving f)) eqn:H.
  - destruct (predictRunway_arriving f config H) as (id & v & -> & Hv).
    exists v. split; [reflexivity | lra].
  - rewrite (predictRunway_not_arriving f config H).
    exists 0. split; [reflexivity | lra].
Qed.

(** C2: the confidence [predictRunway] returns, after the base value
    and the three adjustments, is a number of the closed interval
    [[0, 1]], and so is the confidence of every flight of a batch
    processed by [runPredictions]. *)
Theorem confidence_in_unit_interval :
  (forall f config,
     exists v,
       Prediction.confidence (predictRunway f config) = Num v /\
       0 <= v <= 1) /\
  (forall g flights,
     Forall (fun f => exists v, Flight.confidence f = Some (Num v) /\
                                0 <= v <= 1)
            (snd (runPredictions g flights))).
Proof.
  split.
  - exact predictRunway_confidence_range.
  - apply runPredictions_Forall. intros config f.
    rewrite predict_confidence.
    destruct (predictRunway_confidence_range (classify f) config)
      as (v & -> & Hv).
    now exists v.
Qed.

(** C10: for a flight whose [isArriving] is true the confidence
    [predictRunway] returns is at least 0.3; so, whatever the flight, a
    confidence is never strictly between 0 and 0.3. *)
Theorem confidence_floor (f : Flight.t) (config : Config) :
  (JS.truthy (Flight.isArriving f) = true ->
   exists v,
     Prediction.confidence (predictRunway f config) = Num v /\ 0.3 <= v) /\
  (forall v,
     Prediction.confidence (predictRunway f config) = Num v ->
     ~ (0 < v < 0.3)).
Proof.
  split.
  - intros H.
    destruct (predictRunway_arriving f config H) as (id & v & -> & Hv).
    exists v. split; [reflexivity | lra].
  - intros v Hc. destruct (JS.truthy (Flight.isArriving f)) eqn:H.
    + destruct (predictRunway_arriving f config H) as (id & v' & Hp & Hv).
      rewrite Hp in Hc. cbn in Hc. injection Hc as <-. lra.
    + rewrite (predictRunway_not_arriving f config H) in Hc.
      cbn in Hc. injection Hc as <-. lra.
Qed.

Lemma confidence_floor_witness :
  exists v,
    Prediction.confidence (predictRunway onFinal westerly) = Num v /\
    0.3 <= v.
Proof. exact (proj1 (confidence_floor onFinal westerly) eq_refl). Defined.

(** ** [runPredictions]: what a run reads *)

(** The first loop overwrites the three properties it reads back, so it
    sees nothing of an earlier run. *)
Lemma classify_raw (f : Flight.t) :
  classify (Flight.raw f) = clearPrediction (classify f).
Proof. reflexivity. Qed.

(** The second loop reads no prediction and overwrites both. *)
Lemma predict_clearPrediction (config : Config) (f : Flight.t) :
  predict config (clearPrediction f) = predict config f.
Proof. reflexivity. Qed.

Lemma raw_predict_classify (config : Config) (f : Flight.t) :
  Flight.raw (predict config (classify f)) = Flight.raw f.
Proof. reflexivity. Qed.

Lemma filter_map_commute {A B : Type} (h : A -> B) (p : B -> bool)
    (q : A -> bool) (l : list A) :
  (forall x, p (h x) = q x) ->
  filter p (map h l) = map h (filter q l).
Proof.
  intros H. induction l as [|x l IH]; [reflexivity|].
  cbn [map filter]. rewrite H. destruct (q x); cbn [map]; now rewrite IH.
Qed.

Lemma castVotes_clearPrediction (l : list Flight.t) (votes : nat * nat) :
  fold_left castVotes (map clearPrediction l) votes =
  fold_left castVotes l votes.
Proof.
  revert votes. induction l as [|f l IH]; intros votes; [reflexivity|].
  cbn [map fold_left]. now rewrite IH.
Qed.

(** [detectConfiguration] reads no prediction either. *)
Lemma detectConfiguration_clearPrediction (l : list Flight.t) :
  detectConfiguration (map clearPrediction l) = detectConfiguration l.
Proof.
  unfold detectConfiguration.
  rewrite (filter_map_commute clearPrediction isCandidate isCandidate)
    by reflexivity.
  now rewrite length_map, castVotes_clearPrediction.
Qed.

(** The result of a run is that of the run on the flights as
    [fetchFlights] built them, whatever [activeConfig] was. *)
Lemma runPredictions_raw (g g' : Globals) (flights : list Flight.t) :
  runPredictions g' (map Flight.raw flights) = runPredictions g flights.
Proof.
  unfold runPredictions.
  rewrite (map_map Flight.raw classify).
  rewrite (map_ext _ _ classify_raw), <- (map_map classify clearPrediction).
  rewrite (filter_map_commute clearPrediction _
             (fun f => JS.truthy (Flight.isArriving f) ||
                       negb (JS.truthy (Flight.isDeparting f))))
    by reflexivity.
  rewrite detectConfiguration_clearPrediction.
  rewrite (map_map clearPrediction).
  now rewrite (map_ext _ _ (predict_clearPrediction _)).
Qed.

Lemma runPredictions_output_raw (g : Globals) (flights : list Flight.t) :
  map Flight.raw (snd (runPredictions g flights)) = map Flight.raw flights.
Proof.
  unfold runPredictions. cbn [snd]. rewrite !map_map.
  apply map_ext. intros f. apply raw_predict_classify.
Qed.

(** C7: a second run of [runPredictions], on the flights and the
    [activeConfig] the first run left, changes nothing; and a run gives
    the same result whatever the derived properties and [activeConfig]
    held before it: all of them are computed again from the raw
    properties. *)
Theorem runPredictions_idempotent (g : Globals) (flights : list Flight.t) :
  runPredictions (fst (runPredictions g flights))
                 (snd (runPredictions g flights)) =
  runPredictions g flights /\
  (forall g', runPredictions g' (map Flight.raw flights) =
              runPredictions g flights).
Proof.
  split.
  - rewrite <- (runPredictions_raw (fst (runPredictions g flights)) g
                  (snd (runPredictions g flights))).
    rewrite runPredictions_output_raw. apply runPredictions_raw.
  - intros g'. apply runPredictions_raw.
Qed.

(** ** Ten kilometres out, descending on heading 250 *)

Lemma classify_distanceToAirport (f : Flight.t) :
  Flight.distanceToAirport (classify f) =
  Some (haversine (Flight.latitude f) (Flight.longitude f) (lat FRA) (lng FRA)).
Proof. reflexivity. Qed.

Lemma classify_isArriving_eq (f : Flight.t) :
  exists f', Flight.isArriving (classify f) = Some (isArriving f') /\
             Flight.raw f' = Flight.raw f /\
             Flight.distanceToAirport f' = Flight.distanceToAirport (classify f).
Proof. eexists. repeat split. Qed.

Lemma southOfField_distance :
  haversine (Flight.latitude southOfField) (Flight.longitude southOfField)
            (lat FRA) (lng FRA) = 10.
Proof.
  change (Flight.latitude southOfField) with (lat FRA - toDeg (10 / 6371)).
  change (Flight.longitude southOfField) with (lng FRA).
  assert (E : toRad (lat FRA - (lat FRA - toDeg (10 / 6371))) = 10 / 6371).
  { replace (lat FRA - (lat FRA - toDeg (10 / 6371))) with (toDeg (10 / 6371))
      by ring.
    apply toRad_toDeg. }
  pose proof PI2_1.
  rewrite haversine_meridian; rewrite E; lra.
Qed.

Lemma southOfField_bearing :
  bearing (Flight.latitude southOfField) (Flight.longitude southOfField)
          (lat FRA) (lng FRA) = 0.
Proof.
  change (Flight.latitude southOfField) with (lat FRA - toDeg (10 / 6371)).
  change (Flight.longitude southOfField) with (lng FRA).
  pose proof PI2_1.
  apply bearing_due_north.
  replace (lat FRA - (lat FRA - toDeg (10 / 6371))) with (toDeg (10 / 6371))
    by ring.
  rewrite toRad_toDeg. lra.
Qed.

Lemma approach_check (f : Flight.t) :
  Flight.distanceToAirport f = Some 10 ->
  Flight.baroAltitude f = Some 1000 ->
  Flight.heading f = Some 250 ->
  Flight.verticalRate f = Some (-3) ->
  isDeparting f = false /\
  (isArriving f = true <->
   within 70 250
     (bearing (Flight.latitude f) (Flight.longitude f) (lat FRA) (lng FRA))).
Proof.
  intros Hd Ha Hh Hv.
  assert (Hdep : isDeparting f = false).
  { destruct (isDeparting f) eqn:E; [|reflexivity].
    apply (isDeparting_known f 10 1000 Hd Ha) in E.
    unfold departureRule1, departureRule2, departureRule3, departureRule4,
      vrAbove in E.
    rewrite Hv in E. rewrite !ex_some in E. exfalso. intuition lra. }
  split; [exact Hdep|].
  rewrite isArriving_true_iff.
  unfold arrivalExcluded, arrivalAligned, within, distAbove, altAbove,
    vrAbove.
  rewrite Hd, Ha, Hh, Hv, Hdep. rewrite !ex_some.
  rewrite (angleDiff_eq 250 249 0) by lra.
  replace (250 - 249 - 360 * 0) with 1 by lra. rewrite Rabs_R1.
  split.
  - intros [_ [_ H]]. apply H. lra.
  - intros H. split.
    + intros [?|[?|[?|[?|[?|?]]]]]; try discriminate; lra.
    + split; [left; lra | intros _; exact H].
Qed.

(** C6, as the code has it: a flight 10 km from the airport at 1000 m,
    on heading 250 with a vertical rate of -3 m/s, is not departing, and
    it is arriving exactly when heading 250 is at most 70 degrees away
    from the bearing from the aircraft to the airport. *)
Theorem descending_at_10km (f : Flight.t) :
  Flight.distanceToAirport f = Some 10 ->
  Flight.baroAltitude f = Some 1000 ->
  Flight.heading f = Some 250 ->
  Flight.verticalRate f = Some (-3) ->
  isDeparting f = false /\
  (isArriving f = true <->
   within 70 250
     (bearing (Flight.latitude f) (Flight.longitude f) (lat FRA) (lng FRA))).
Proof. exact (approach_check f). Qed.

Lemma descending_at_10km_witness :
  isDeparting eastOfField = false /\
  (isArriving eastOfField = true <->
   within 70 250
     (bearing (Flight.latitude eastOfField) (Flight.longitude eastOfField)
              (lat FRA) (lng FRA))).
Proof. apply (descending_at_10km eastOfField); reflexivity. Defined.

(** C6, as stated, fails: the first loop of [runPredictions] finds
    [southOfField] 10 km from the airport, at 1000 m on heading 250 with
    a vertical rate of -3 m/s, and [isArriving] is false: the airport
    lies due north, 110 degrees off the heading. *)
Lemma descending_at_10km_counterexample :
  Flight.distanceToAirport (classify southOfField) = Some 10 /\
  Flight.baroAltitude (classify southOfField) = Some 1000 /\
  Flight.heading (classify southOfField) = Some 250 /\
  Flight.verticalRate (classify southOfField) = Some (-3) /\
  isArriving (classify southOfField) = false /\
  Flight.isArriving (classify southOfField) = Some false.
Proof.
  assert (Hd : Flight.distanceToAirport (classify southOfField) = Some 10).
  { rewrite classify_distanceToAirport. f_equal. exact southOfField_distance. }
  assert (Hfalse : forall f,
            Flight.raw f = Flight.raw southOfField ->
            Flight.distanceToAirport f = Some 10 ->
            isArriving f = false).
  { intros f Hraw Hdist.
    assert (Hla : Flight.latitude f = Flight.latitude southOfField)
      by exact (f_equal Flight.latitude Hraw).
    assert (Hlo : Flight.longitude f = Flight.longitude southOfField)
      by exact (f_equal Flight.longitude Hraw).
    destruct (approach_check f Hdist
                (f_equal Flight.baroAltitude Hraw)
                (f_equal Flight.heading Hraw)
                (f_equal Flight.verticalRate Hraw)) as [_ Hiff].
    destruct (isArriving f); [|reflexivity].
    exfalso. destruct Hiff as [Hiff _]. specialize (Hiff eq_refl).
    unfold within in Hiff.
    rewrite Hla, Hlo, southOfField_bearing in Hiff.
    rewrite (angleDiff_eq 250 0 1) in Hiff by lra.
    replace (250 - 0 - 360 * 1) with (-110) in Hiff by lra.
    rewrite Rabs_left in Hiff; lra. }
  repeat split; try assumption.
  - apply Hfalse; [reflexivity | exact Hd].
  - destruct (classify_isArriving_eq southOfField) as (f' & -> & Hraw & Hdist).
    f_equal. apply Hfalse; [exact Hraw | now rewrite Hdist].
Qed.

(** ** Examples *)

(** The correcting branch of [angleDiff]: a negative remainder. *)
Example angleDiff_10_350 : angleDiff 10 350 = 20.
Proof. rewrite angleDiff_eq_neg; lra. Qed.

(** Rule 1: close to the airport and climbing, whatever the heading. *)
Example isDeparting_climbingOut : isDeparting climbingOut = true.
Proof.
  apply (isDeparting_known climbingOut 10 1000); [reflexivity ..|].
  left. split; [lra|]. exists 3. split; [reflexivity | lra].
Qed.

Example detectConfiguration_nil : detectConfiguration [] = westerly.
Proof. reflexivity. Qed.

Lemma easterlyArrival_votes :
  votesFor 70 easterlyArrival = true /\ votesFor 250 easterlyArrival = false.
Proof.
  unfold votesFor, eligible. cbn [easterlyArrival Flight.baroAltitude
    Flight.heading Flight.verticalRate Flight.distanceToAirport].
  rewrite (angleDiff_eq 70 70 0), (angleDiff_eq 70 250 0) by lra.
  replace (70 - 70 - 360 * 0) with 0 by lra.
  replace (70 - 250 - 360 * 0) with (-180) by lra.
  rewrite Rabs_R0, (Rabs_left (-180)) by lra.
  replace (JS.ltb 1500 4000) with true by (symmetry; apply ltb_true; lra).
  replace (JS.ltb (-4) (-1)) with true by (symmetry; apply ltb_true; lra).
  replace (JS.ltb 20 80) with true by (symmetry; apply ltb_true; lra).
  replace (JS.ltb 0 40) with true by (symmetry; apply ltb_true; lra).
  replace (JS.ltb (- -180) 40) with false by (symmetry; apply ltb_false; lra).
  split; reflexivity.
Qed.

(** One descending flight on heading 70 turns the answer to easterly. *)
Example detectConfiguration_easterly :
  detectConfiguration [easterlyArrival] = easterly.
Proof.
  destruct (detectConfiguration [easterlyArrival]) eqn:E; [|reflexivity].
  apply detectConfiguration_westerly_iff in E.
  unfold easterlyVoteCount, westerlyVoteCount in E. cbn [filter] in E.
  destruct easterlyArrival_votes as [H70 H250].
  rewrite H70, H250 in E. cbn [List.length] in E. lia.
Qed.

(** * Further properties of the engine *)

(** ** [angleDiff] as the signed difference of two directions *)








(** ** [haversine], [bearing] and [crossTrackDistance] *)

Lemma atan_nonneg (x : R) : 0 <= x -> 0 <= atan x.
Proof.
  intros [Hx | <-]; [|rewrite atan_0; lra].
  apply atan_increasing in Hx. rewrite atan_0 in Hx. lra.
Qed.

Lemma atan2_first_quadrant (y x : R) :
  0 <= y -> 0 <= x -> 0 <= JS.atan2 y x <= PI / 2.
Proof.
  intros Hy Hx. pose proof PI_RGT_0. unfold JS.atan2.
  destruct (Rlt_dec 0 x) as [Hpos|].
  - split.
    + apply atan_nonneg. apply Rmult_le_pos;
        [assumption | left; now apply Rinv_0_lt_compat].
    + pose proof (atan_bound (y / x)). lra.
  - destruct (Rlt_dec x 0); [lra|].
    destruct (Rlt_dec 0 y); [lra|].
    destruct (Rlt_dec y 0); lra.
Qed.

(** X4: a distance computed by [haversine] is never negative and never
    more than half the circumference of the sphere, 6371 * PI km. *)
Theorem haversine_range (lat1 lon1 lat2 lon2 : R) :
  0 <= haversine lat1 lon1 lat2 lon2 <= 6371 * PI.
Proof.
  rewrite haversine_unfold.
  pose proof (atan2_first_quadrant
                (sqrt (haversineA lat1 lon1 lat2 lon2))
                (sqrt (1 - haversineA lat1 lon1 lat2 lon2))
                (sqrt_pos _) (sqrt_pos _)) as H.
  lra.
Qed.

(** X5: between two points of one meridian, less than half a turn
    apart, [haversine] is the radius times the difference of latitude in
    radians, in either direction. *)
Theorem haversine_along_meridian (lat1 lat2 lon : R) :
  Rabs (toRad (lat2 - lat1)) < PI ->
  haversine lat1 lon lat2 lon = 6371 * Rabs (toRad (lat2 - lat1)).
Proof.
  intros H. destruct (Rle_lt_dec 0 (toRad (lat2 - lat1))) as [Hpos|Hneg].
  - rewrite Rabs_right in * by lra. apply haversine_meridian. lra.
  - rewrite Rabs_left in * by lra.
    rewrite haversine_unfold, haversineA_sym, <- haversine_unfold.
    assert (E : toRad (lat1 - lat2) = - toRad (lat2 - lat1))
      by (unfold toRad; lra).
    rewrite haversine_meridian; rewrite E; lra.
Qed.

Lemma haversine_along_meridian_witness :
  haversine 49 8 50 8 = 6371 * Rabs (toRad (50 - 49)).
Proof.
  apply (haversine_along_meridian 49 50 8).
  pose proof PI_RGT_0. unfold toRad. rewrite Rabs_right; lra.
Defined.

Lemma rem_small_neg (n d : R) : 0 < d -> - d < n < 0 -> JS.rem n d = n.
Proof.
  intros Hd Hn. unfold JS.rem. rewrite trunc_small_neg; [lra|].
  assert (Hnd : n = d * (n / d)) by (field; lra).
  split.
  - apply Rmult_lt_reg_l with (r := d); lra.
  - apply Rmult_lt_reg_l with (r := d); lra.
Qed.

(** The normalisation at the end of [bearing], on an angle between -180
    and 180 degrees. *)
Lemma normalise_bearing (deg : R) :
  -180 <= deg <= 180 ->
  JS.rem (JS.rem deg 360 + 360) 360 = if Rlt_dec deg 0 then deg + 360 else deg.
Proof.
  intros Hdeg. destruct (Rlt_dec deg 0).
  - rewrite (rem_small_neg deg 360) by lra.
    rewrite (rem_eq _ 360 0); lra.
  - rewrite (rem_eq deg 360 0) by lra.
    rewrite (rem_eq _ 360 1); lra.
Qed.

Lemma atan2_0_0 : JS.atan2 0 0 = 0.
Proof.
  unfold JS.atan2.
  destruct (Rlt_dec 0 0); [lra|]. destruct (Rlt_dec 0 0); [lra|].
  reflexivity.
Qed.

Lemma atan2_0_neg (x : R) : x < 0 -> JS.atan2 0 x = PI.
Proof.
  intros Hx. unfold JS.atan2.
  destruct (Rlt_dec 0 x); [lra|]. destruct (Rlt_dec x 0); [|lra].
  destruct (Rle_dec 0 0); [|lra].
  unfold Rdiv. rewrite Rmult_0_l, atan_0. lra.
Qed.

Lemma atan2_pos_0 (y : R) : 0 < y -> JS.atan2 y 0 = PI / 2.
Proof.
  intros Hy. unfold JS.atan2.
  destruct (Rlt_dec 0 0); [lra|]. destruct (Rlt_dec 0 0); [lra|].
  destruct (Rlt_dec 0 y); [reflexivity | lra].
Qed.

Lemma atan2_neg_0 (y : R) : y < 0 -> JS.atan2 y 0 = - (PI / 2).
Proof.
  intros Hy. unfold JS.atan2.
  destruct (Rlt_dec 0 0); [lra|]. destruct (Rlt_dec 0 0); [lra|].
  destruct (Rlt_dec 0 y); [lra|]. destruct (Rlt_dec y 0); [reflexivity | lra].
Qed.

Lemma toDeg_PI : toDeg PI = 180.
Proof. unfold toDeg. field. apply PI_neq0. Qed.

Lemma toDeg_half_PI : toDeg (PI / 2) = 90.
Proof. unfold toDeg. field. apply PI_neq0. Qed.

Lemma toDeg_opp (x : R) : toDeg (- x) = - toDeg x.
Proof. unfold toDeg. field. apply PI_neq0. Qed.

(** X6: a bearing is normalised to the half-open interval [[0, 360)],
    and the bearing from a point to itself is 0. *)
Theorem bearing_normalised :
  (forall lat1 lon1 lat2 lon2 : R,
     0 <= bearing lat1 lon1 lat2 lon2 < 360) /\
  (forall la lo : R, bearing la lo la lo = 0).
Proof.
  split.
  - intros. unfold bearing. cbv zeta.
    set (deg := toDeg _).
    pose proof (rem_abs_lt deg 360 ltac:(lra)).
    apply rem_nonneg; lra.
  - intros. unfold bearing. cbv zeta.
    replace (lo - lo) with 0 by ring. rewrite toRad_0, sin_0, cos_0.
    replace (0 * cos (toRad la)) with 0 by ring.
    replace (cos (toRad la) * sin (toRad la) -
             sin (toRad la) * cos (toRad la) * 1) with 0 by ring.
    rewrite atan2_0_0, toDeg_0, normalise_bearing by lra.
    destruct (Rlt_dec _ _); lra.
Qed.

(** X7: the four cardinal bearings.  Along a meridian the bearing is 0
    to a point further north and 180 to a point further south; along the
    equator it is 90 to a point further east and 270 to a point further
    west (each less than half a turn away). *)
Theorem bearing_cardinal (lat1 lat2 lon1 lon2 : R) :
  (0 < toRad (lat2 - lat1) < PI -> bearing lat1 lon1 lat2 lon1 = 0) /\
  (- PI < toRad (lat2 - lat1) < 0 -> bearing lat1 lon1 lat2 lon1 = 180) /\
  (0 < toRad (lon2 - lon1) < PI -> bearing 0 lon1 0 lon2 = 90) /\
  (- PI < toRad (lon2 - lon1) < 0 -> bearing 0 lon1 0 lon2 = 270).
Proof.
  repeat split.
  - apply bearing_due_north.
  - intros H. unfold bearing. cbv zeta.
    replace (lon1 - lon1) with 0 by ring. rewrite toRad_0, sin_0, cos_0.
    replace (0 * cos (toRad lat2)) with 0 by ring.
    replace (cos (toRad lat1) * sin (toRad lat2) -
             sin (toRad lat1) * cos (toRad lat2) * 1)
      with (sin (toRad (lat2 - lat1)))
      by (rewrite toRad_minus, sin_minus; ring).
    rewrite atan2_0_neg by (apply sin_lt_0_var; lra).
    rewrite toDeg_PI, normalise_bearing by lra.
    destruct (Rlt_dec _ _); lra.
  - intros H. unfold bearing. cbv zeta.
    rewrite toRad_0, sin_0, cos_0.
    replace (1 * 0 - 0 * 1 * cos (toRad (lon2 - lon1))) with 0 by ring.
    rewrite Rmult_1_r.
    rewrite atan2_pos_0 by (apply sin_gt_0; lra).
    rewrite toDeg_half_PI, normalise_bearing by lra.
    destruct (Rlt_dec _ _); lra.
  - intros H. unfold bearing. cbv zeta.
    rewrite toRad_0, sin_0, cos_0.
    replace (1 * 0 - 0 * 1 * cos (toRad (lon2 - lon1))) with 0 by ring.
    rewrite Rmult_1_r.
    rewrite atan2_neg_0 by (apply sin_lt_0_var; lra).
    rewrite toDeg_opp, toDeg_half_PI, normalise_bearing by lra.
    destruct (Rlt_dec _ _); lra.
Qed.

Lemma bearing_cardinal_witness : bearing 0 8 0 7 = 270.
Proof.
  apply (proj2 (proj2 (proj2 (bearing_cardinal 0 0 8 7)))).
  pose proof PI_RGT_0. unfold toRad. lra.
Defined.

Lemma asin_le (x d : R) :
  0 <= d <= PI -> -1 <= x <= 1 -> x <= sin d -> asin x <= d.
Proof.
  intros Hd Hx Hle. pose proof (asin_bound x) as Hb.
  destruct (Rle_lt_dec (PI / 2) d) as [Hbig|Hsmall]; [lra|].
  destruct (Rle_lt_dec (asin x) d) as [|Hgt]; [assumption|].
  exfalso.
  assert (Hs : sin d < sin (asin x))
    by (apply sin_increasing_1; lra).
  rewrite sin_asin in Hs by assumption. lra.
Qed.

Lemma Rabs_asin_le (x d : R) :
  0 <= d <= PI -> Rabs x <= sin d -> Rabs (asin x) <= d.
Proof.
  intros Hd Hx.
  assert (Hsd : sin d <= 1) by apply SIN_bound.
  assert (Hx' : - sin d <= x <= sin d).
  { unfold Rabs in Hx. destruct (Rcase_abs x); lra. }
  apply Rabs_le. split.
  - pose proof (asin_le (- x) d Hd ltac:(lra) ltac:(lra)) as H.
    rewrite asin_opp in H. lra.
  - apply asin_le; lra.
Qed.

(** X8: a cross-track distance is never negative, never more than a
    quarter of the circumference (6371 * PI / 2 km), and never more than
    the distance from the start of the line to the point. *)
Theorem crossTrackDistance_bounds
    (pointLat pointLon lineLat1 lineLon1 lineLat2 lineLon2 : R) :
  0 <= crossTrackDistance pointLat pointLon
         lineLat1 lineLon1 lineLat2 lineLon2 /\
  crossTrackDistance pointLat pointLon lineLat1 lineLon1 lineLat2 lineLon2
    <= 6371 * PI / 2 /\
  crossTrackDistance pointLat pointLon lineLat1 lineLon1 lineLat2 lineLon2
    <= haversine lineLat1 lineLon1 pointLat pointLon.
Proof.
  unfold crossTrackDistance. cbv zeta.
  set (d13 := haversine lineLat1 lineLon1 pointLat pointLon / 6371).
  set (theta := toRad _ - toRad _).
  pose proof (Rabs_pos (asin (sin d13 * sin theta))) as Hpos.
  split; [nra|]. split.
  - pose proof (asin_bound (sin d13 * sin theta)) as Hb.
    assert (Rabs (asin (sin d13 * sin theta)) <= PI / 2)
      by (apply Rabs_le; lra).
    lra.
  - pose proof (haversine_unfold lineLat1 lineLon1 pointLat pointLon) as Hh.
    pose proof (atan2_first_quadrant
                  (sqrt (haversineA lineLat1 lineLon1 pointLat pointLon))
                  (sqrt (1 - haversineA lineLat1 lineLon1 pointLat pointLon))
                  (sqrt_pos _) (sqrt_pos _)) as Hq.
    assert (Hd : 0 <= d13 <= PI) by (unfold d13; lra).
    assert (Hs : 0 <= sin d13) by (apply sin_ge_0; lra).
    assert (Hx : Rabs (sin d13 * sin theta) <= sin d13).
    { rewrite Rabs_mult, (Rabs_right (sin d13)) by lra.
      assert (Rabs (sin theta) <= 1)
        by (apply Rabs_le; pose proof (SIN_bound theta); lra).
      nra. }
    pose proof (Rabs_asin_le _ _ Hd Hx).
    replace (haversine lineLat1 lineLon1 pointLat pointLon)
      with (d13 * 6371) by (unfold d13; field).
    nra.
Qed.



(** ** More on [isDeparting] and [detectConfiguration] *)

(** X10: a flight is never departing when its vertical rate is unknown,
    when it is level or descending, or when it is 40 km or more from the
    airport. *)
Theorem isDeparting_never (f : Flight.t) :
  Flight.verticalRate f = None \/
  (exists v, Flight.verticalRate f = Some v /\ v <= 0) \/
  (exists d, Flight.distanceToAirport f = Some d /\ 40 <= d) ->
  isDeparting f = false.
Proof.
  intros H.
  destruct (isDeparting f) eqn:E; [exfalso | reflexivity].
  destruct (Flight.distanceToAirport f) as [dist|] eqn:Hd;
    [|unfold isDeparting in E; rewrite Hd in E; discriminate].
  destruct (Flight.baroAltitude f) as [alt|] eqn:Ha;
    [|unfold isDeparting in E; rewrite Hd, Ha in E; discriminate].
  apply (isDeparting_known f dist alt Hd Ha) in E.
  unfold departureRule1, departureRule2, departureRule3, departureRule4,
    vrAbove in E.
  destruct H as [Hv | [[v [Hv Hle]] | [d [[= <-] Hfar]]]].
  - rewrite Hv in E. rewrite !ex_none in E. tauto.
  - rewrite Hv in E. rewrite !ex_some in E. intuition lra.
  - intuition lra.
Qed.

Lemma isDeparting_never_witness : isDeparting eastOfField = false.
Proof.
  apply (isDeparting_never eastOfField).
  right; left. exists (-3). split; [reflexivity | lra].
Defined.



Lemma filter_length_Permutation {A : Type} (p : A -> bool) (l l' : list A) :
  Permutation l l' -> List.length (filter p l) = List.length (filter p l').
Proof.
  induction 1 as [|x l l' _ IH|x y l|l l' l'' _ IH1 _ IH2]; cbn [filter].
  - reflexivity.
  - destruct (p x); cbn [List.length]; congruence.
  - destruct (p x), (p y); reflexivity.
  - congruence.
Qed.

Lemma detectConfiguration_Permutation (l l' : list Flight.t) :
  Permutation l l' -> detectConfiguration l = detectConfiguration l'.
Proof.
  intros HP.
  pose proof (detectConfiguration_westerly_iff l) as H.
  pose proof (detectConfiguration_westerly_iff l') as H'.
  unfold westerlyVoteCount, easterlyVoteCount in *.
  rewrite (filter_length_Permutation (votesFor 70) l l' HP),
          (filter_length_Permutation (votesFor 250) l l' HP) in H.
  destruct (detectConfiguration l), (detectConfiguration l');
    try reflexivity.
  - assert (E : easterly = westerly) by (apply H', H; reflexivity).
    discriminate.
  - assert (E : easterly = westerly) by (apply H, H'; reflexivity).
    discriminate.
Qed.

Lemma votes_of_eligible (dir : R) (l : list Flight.t) :
  List.length (filter (votesFor dir) (filter eligible l)) =
  List.length (filter (votesFor dir) l).
Proof.
  rewrite filter_filter_length. f_equal. apply filter_ext.
  intros f. unfold votesFor. now destruct (eligible f).
Qed.

Lemma easterlyArrival_eligible : eligible easterlyArrival = true.
Proof.
  unfold eligible. cbn [easterlyArrival Flight.baroAltitude Flight.heading
    Flight.verticalRate Flight.distanceToAirport].
  rewrite !andb_true_iff, !ltb_true. lra.
Qed.

(** Two batches with the same numbers of votes get the same answer. *)
Lemma detectConfiguration_same_votes (l l' : list Flight.t) :
  (forall dir, List.length (filter (votesFor dir) l) =
               List.length (filter (votesFor dir) l')) ->
  detectConfiguration l = detectConfiguration l'.
Proof.
  intros Hcount.
  pose proof (detectConfiguration_westerly_iff l) as H.
  pose proof (detectConfiguration_westerly_iff l') as H'.
  unfold westerlyVoteCount, easterlyVoteCount in *.
  rewrite !Hcount in H.
  destruct (detectConfiguration l), (detectConfiguration l');
    try reflexivity.
  - assert (E : easterly = westerly) by (apply H', H; reflexivity).
    discriminate.
  - assert (E : easterly = westerly) by (apply H, H'; reflexivity).
    discriminate.
Qed.

(** X12: the configuration [detectConfiguration] answers depends on the
    eligible flights alone, and not on their order: two batches whose
    eligible flights are the same up to order get the same answer. *)
Theorem detectConfiguration_order_independent (l l' : list Flight.t) :
  Permutation (filter eligible l) (filter eligible l') ->
  detectConfiguration l = detectConfiguration l'.
Proof.
  intros HP. apply detectConfiguration_same_votes. intros dir.
  rewrite <- (votes_of_eligible dir l), <- (votes_of_eligible dir l').
  now apply filter_length_Permutation.
Qed.

Lemma detectConfiguration_order_independent_witness :
  detectConfiguration [easterlyArrival; climbingOut] =
  detectConfiguration [easterlyArrival].
Proof.
  apply (detectConfiguration_order_independent
           [easterlyArrival; climbingOut] [easterlyArrival]).
  cbn [filter]. rewrite easterlyArrival_eligible.
  apply Permutation_refl.
Defined.

(** ** The runway [predictRunway] picks *)

Lemma scoreRunway_step (flight : Flight.t) (done : list RunwayId)
    (st : Scoring) (r : RunwayId) :
  scoredSoFar flight done st ->
  scoredSoFar flight (done ++ [r]) (scoreRunway flight st r).
Proof.
  intros [(-> & Hinf & Hnone) | (id & Hid & Hbest & before & after & -> & Hb & Ha)];
    right; unfold scoreRunway; cbv zeta;
    fold (crossTrackTo flight r); fold (runwayScore flight r).
  - rewrite Hinf. cbn [belowBest bestRunway bestScore].
    exists r. repeat split. exists [], []. repeat split; constructor.
  - rewrite Hbest. cbn [belowBest].
    destruct (JS.ltb (runwayScore flight r) (runwayScore flight id)) eqn:E;
      cbn [bestRunway bestScore].
    + apply ltb_true in E. exists r. repeat split.
      exists (before ++ id :: after), []. repeat split; [|constructor].
      apply Forall_app. split; [|constructor].
      * eapply Forall_impl; [|exact Hb]. cbv beta. intros; lra.
      * exact E.
      * eapply Forall_impl; [|exact Ha]. cbv beta. intros; lra.
    + apply ltb_false in E. exists id. repeat split; [assumption ..|].
      exists before, (after ++ [r]). repeat split.
      * now rewrite <- app_assoc.
      * assumption.
      * apply Forall_app. split; [assumption | now constructor].
Qed.

Lemma scoreRunway_fold (flight : Flight.t) (rest done : list RunwayId)
    (st : Scoring) :
  scoredSoFar flight done st ->
  scoredSoFar flight (done ++ rest) (fold_left (scoreRunway flight) rest st).
Proof.
  revert done st. induction rest as [|r rest IH]; intros done st H;
    cbn [fold_left].
  - now rewrite app_nil_r.
  - replace (done ++ r :: rest) with ((done ++ [r]) ++ rest)
      by (now rewrite <- app_assoc).
    apply IH. now apply scoreRunway_step.
Qed.

(** After the loop over a configuration, the best runway is the first
    of its runways with the least score. *)
Lemma scoring_first_minimum (flight : Flight.t) (config : Config) :
  exists id,
    bestRunway (fold_left (scoreRunway flight) (CONFIGS config) initScoring)
      = Some id /\
    bestScore (fold_left (scoreRunway flight) (CONFIGS config) initScoring)
      = Fin (runwayScore flight id) /\
    firstMinimum (runwayScore flight) (CONFIGS config) id.
Proof.
  destruct (scoreRunway_fold flight (CONFIGS config) [] initScoring)
    as [(E & _) | H].
  - left. repeat split.
  - destruct config; discriminate.
  - exact H.
Qed.

Lemma predictRunway_runway (f : Flight.t) (config : Config) :
  JS.truthy (Flight.isArriving f) = true ->
  Prediction.runway (predictRunway f config) =
  bestRunway (fold_left (scoreRunway f) (CONFIGS config) initScoring).
Proof.
  intros H. unfold predictRunway. rewrite H. cbn [negb]. cbv zeta.
  now destruct (bestScore _).
Qed.

(** X13: for a flight whose [isArriving] is true, the runway
    [predictRunway] returns belongs to the given configuration and is
    the first of its runways, in the order of [CONFIGS], with the least
    score: ties go to the runway listed first. *)
Theorem predictRunway_first_minimum (f : Flight.t) (config : Config) :
  JS.truthy (Flight.isArriving f) = true ->
  exists id,
    Prediction.runway (predictRunway f config) = Some id /\
    In id (CONFIGS config) /\
    firstMinimum (runwayScore f) (CONFIGS config) id.
Proof.
  intros H. rewrite (predictRunway_runway f config H).
  destruct (scoring_first_minimum f config) as (id & Hid & _ & Hmin).
  exists id. repeat split; [assumption | | assumption].
  destruct Hmin as (before & after & -> & _).
  apply in_or_app. right. now left.
Qed.

Lemma predictRunway_first_minimum_witness :
  exists id,
    Prediction.runway (predictRunway onFinal easterly) = Some id /\
    In id (CONFIGS easterly) /\
    firstMinimum (runwayScore onFinal) (CONFIGS easterly) id.
Proof. exact (predictRunway_first_minimum onFinal easterly eq_refl). Defined.

(** The runways of one configuration share their heading. *)
Lemma CONFIGS_heading (config : Config) (r : RunwayId) :
  In r (CONFIGS config) ->
  Runway.heading (RUNWAYS r) =
  Runway.heading (RUNWAYS (firstRunway (CONFIGS config))).
Proof.
  destruct config; cbn [CONFIGS In];
    intros [<- | [<- | [<- | []]]]; reflexivity.
Qed.

(** X14: the heading plays no part in the choice.  The runways of a
    configuration share one heading, so the runway [predictRunway]
    returns is the first runway of the configuration whose centerline
    is nearest to the flight. *)
Theorem predictRunway_nearest_centerline (f : Flight.t) (config : Config) :
  JS.truthy (Flight.isArriving f) = true ->
  exists id,
    Prediction.runway (predictRunway f config) = Some id /\
    firstMinimum (crossTrackTo f) (CONFIGS config) id.
Proof.
  intros H. rewrite (predictRunway_runway f config H).
  destruct (scoring_first_minimum f config)
    as (id & Hid & _ & before & after & E & Hb & Ha).
  exists id. split; [assumption|]. exists before, after.
  assert (Hscore : forall r, In r (CONFIGS config) ->
            runwayScore f r - crossTrackTo f r =
            runwayScore f id - crossTrackTo f id).
  { intros r Hr. unfold runwayScore.
    rewrite (CONFIGS_heading config r Hr), (CONFIGS_heading config id);
      [lra|].
    rewrite E. apply in_or_app. right. now left. }
  repeat split; [assumption | |].
  - apply Forall_forall. intros r Hr.
    rewrite Forall_forall in Hb. specialize (Hb r Hr).
    specialize (Hscore r). rewrite E in Hscore.
    specialize (Hscore ltac:(apply in_or_app; now left)). lra.
  - apply Forall_forall. intros r Hr.
    rewrite Forall_forall in Ha. specialize (Ha r Hr).
    specialize (Hscore r). rewrite E in Hscore.
    specialize (Hscore ltac:(apply in_or_app; right; now right)). lra.
Qed.

Lemma predictRunway_nearest_centerline_witness :
  exists id,
    Prediction.runway (predictRunway onFinal westerly) = Some id /\
    firstMinimum (crossTrackTo onFinal) (CONFIGS westerly) id.
Proof.
  exact (predictRunway_nearest_centerline onFinal westerly eq_refl).
Defined.

(** X15: distance caps the confidence.  For a flight more than 50 km
    from the airport [predictRunway] returns at most 0.7, and for a
    flight more than 30 km away at most 0.9: full confidence is only
    given within 30 km. *)
Theorem confidence_distance_cap (f : Flight.t) (config : Config) (d : R) :
  Flight.distanceToAirport f = Some d ->
  exists v,
    Prediction.confidence (predictRunway f config) = Num v /\
    (50 < d -> v <= 0.7) /\ (30 < d -> v <= 0.9).
Proof.
  intros Hd. destruct (JS.truthy (Flight.isArriving f)) eqn:H.
  - unfold predictRunway. rewrite H, Hd. cbn [negb JS.ltb_undef JS.gtb_undef].
    cbv zeta.
    destruct (CONFIGS_scored f config) as (b & id & Hb & Hid & Hall).
    rewrite Hb.
    pose proof (pickOtherScore_ge _ _ Hall) as Hsep.
    set (other := pickOtherScore _ b) in *.
    eexists. split; [reflexivity|].
    destruct (JS.gtb d 50) eqn:E50; [apply gtb_true in E50 | apply gtb_false in E50];
      (destruct (JS.gtb d 30) eqn:E30;
       [apply gtb_true in E30 | apply gtb_false in E30]);
      repeat match goal with
             | |- context [if ?c then _ else _] => destruct c
             end;
      unfold Rmin; repeat destruct (Rle_dec _ _); split; intros; lra.
  - rewrite (predictRunway_not_arriving f config H).
    exists 0. split; [reflexivity|]. split; intros; lra.
Qed.

Lemma confidence_distance_cap_witness :
  exists v,
    Prediction.confidence (predictRunway farOut westerly) = Num v /\
    (50 < 60 -> v <= 0.7) /\ (30 < 60 -> v <= 0.9).
Proof. exact (confidence_distance_cap farOut westerly 60 eq_refl). Defined.

(** ** More on [runPredictions] *)

Lemma predictRunway_in_config (f : Flight.t) (config : Config)
    (id : RunwayId) :
  Prediction.runway (predictRunway f config) = Some id ->
  In id (CONFIGS config).
Proof.
  intros Hrun. destruct (JS.truthy (Flight.isArriving f)) eqn:H.
  - rewrite (predictRunway_runway f config H) in Hrun.
    destruct (scoring_first_minimum f config)
      as (id' & Hid & _ & before & after & -> & _).
    rewrite Hid in Hrun. injection Hrun as <-.
    apply in_or_app. right. now left.
  - rewrite (predictRunway_not_arriving f config H) in Hrun. discriminate.
Qed.

(** X16: [runPredictions] keeps the batch: the flights come back in the
    same number and order with their telemetry unchanged, and each one
    carries its haversine distance to the airport, which lies between 0
    and 6371 * PI km. *)
Theorem runPredictions_keeps_flights (g : Globals) (flights : list Flight.t) :
  map Flight.raw (snd (runPredictions g flights)) = map Flight.raw flights /\
  List.length (snd (runPredictions g flights)) = List.length flights /\
  Forall (fun f =>
            exists d,
              Flight.distanceToAirport f = Some d /\
              d = haversine (Flight.latitude f) (Flight.longitude f)
                            (lat FRA) (lng FRA) /\
              0 <= d <= 6371 * PI)
         (snd (runPredictions g flights)).
Proof.
  split; [apply runPredictions_output_raw|]. split.
  - unfold runPredictions. cbn [snd]. now rewrite !length_map.
  - apply runPredictions_Forall. intros config f.
    exists (haversine (Flight.latitude f) (Flight.longitude f)
                      (lat FRA) (lng FRA)).
    split; [reflexivity|]. split; [reflexivity|].
    rewrite haversine_unfold.
    pose proof (atan2_first_quadrant
                  (sqrt (haversineA (Flight.latitude f) (Flight.longitude f)
                                    (lat FRA) (lng FRA)))
                  (sqrt (1 - haversineA (Flight.latitude f)
                                        (Flight.longitude f)
                                        (lat FRA) (lng FRA)))
                  (sqrt_pos _) (sqrt_pos _)).
    lra.
Qed.

(** X17: one configuration per run.  [runPredictions] leaves a
    configuration in [activeConfig], and every runway it predicts in the
    batch is one of the three runways of that configuration. *)
Theorem runPredictions_one_configuration (g : Globals)
    (flights : list Flight.t) :
  exists config,
    activeConfig (fst (runPredictions g flights)) = Some config /\
    Forall (fun f =>
              forall id,
                Flight.predictedRunway f = Some (Some id) ->
                In id (CONFIGS config))
           (snd (runPredictions g flights)).
Proof.
  unfold runPredictions. cbn [fst snd activeConfig].
  eexists. split; [reflexivity|].
  rewrite map_map. apply Forall_forall. intros f' Hin.
  apply in_map_iff in Hin. destruct Hin as [f [<- _]].
  intros id Hid. rewrite predict_predictedRunway in Hid.
  injection Hid as Hid. exact (predictRunway_in_config _ _ _ Hid).
Qed.

Lemma filter_Permutation {A : Type} (p : A -> bool) (l l' : list A) :
  Permutation l l' -> Permutation (filter p l) (filter p l').
Proof.
  induction 1 as [|x l l' _ IH|x y l|l l' l'' _ IH1 _ IH2]; cbn [filter].
  - constructor.
  - destruct (p x); [now constructor | assumption].
  - destruct (p x), (p y); try apply Permutation_refl. apply perm_swap.
  - eapply perm_trans; eassumption.
Qed.

(** X18: the order of the batch does not matter.  On the same flights
    in another order [runPredictions] finds the same configuration and
    returns the same flights, in that other order. *)
Theorem runPredictions_order_independent (g g' : Globals)
    (flights flights' : list Flight.t) :
  Permutation flights flights' ->
  fst (runPredictions g flights) = fst (runPredictions g' flights') /\
  Permutation (snd (runPredictions g flights))
              (snd (runPredictions g' flights')).
Proof.
  intros HP. unfold runPredictions. cbn [fst snd].
  assert (Hc : Permutation (map classify flights) (map classify flights'))
    by now apply Permutation_map.
  set (keep := fun f => JS.truthy (Flight.isArriving f) ||
                        negb (JS.truthy (Flight.isDeparting f))).
  assert (Hcfg : detectConfiguration (filter keep (map classify flights)) =
                 detectConfiguration (filter keep (map classify flights'))).
  { apply detectConfiguration_Permutation. now apply filter_Permutation. }
  rewrite Hcfg. split; [reflexivity|]. now apply Permutation_map.
Qed.

Lemma runPredictions_order_independent_witness :
  fst (runPredictions {| activeConfig := None |} [southOfField; climbingOut]) =
  fst (runPredictions {| activeConfig := None |} [climbingOut; southOfField]) /\
  Permutation
    (snd (runPredictions {| activeConfig := None |} [southOfField; climbingOut]))
    (snd (runPredictions {| activeConfig := None |} [climbingOut; southOfField])).
Proof.
  apply (runPredictions_order_independent _ _
           [southOfField; climbingOut] [climbingOut; southOfField]).
  apply perm_swap.
Defined.

(** X19: in a batch processed by [runPredictions] no flight is marked
    both arriving and departing, and every flight marked arriving has a
    known heading, is at most 80 km from the airport and at most 4000 m
    high. *)
Theorem runPredictions_arriving_flights (g : Globals)
    (flights : list Flight.t) :
  Forall (fun f =>
            Flight.isArriving f = Some true ->
            Flight.isDeparting f = Some false /\
            (exists d, Flight.distanceToAirport f = Some d /\ d <= 80) /\
            (exists a, Flight.baroAltitude f = Some a /\ a <= 4000) /\
            (exists h, Flight.heading f = Some h))
         (snd (runPredictions g flights)).
Proof.
  apply runPredictions_Forall. intros config f Harr.
  rewrite predict_isArriving in Harr.
  set (d := haversine (Flight.latitude f) (Flight.longitude f)
                      (lat FRA) (lng FRA)).
  set (f1 := Flight.set_distanceToAirport d f).
  set (f2 := Flight.set_isDeparting (isDeparting f1) f1).
  assert (Ha : isArriving f2 = true).
  { change (Some (isArriving f2) = Some true) in Harr. now injection Harr. }
  apply isArriving_true_iff in Ha. destruct Ha as [Hex (h & Hh & _)].
  unfold arrivalExcluded, distAbove, altAbove in Hex.
  change (Flight.isDeparting (predict config (classify f)))
    with (Some (isDeparting f1)).
  change (Flight.distanceToAirport (predict config (classify f)))
    with (Some d).
  change (Flight.baroAltitude (predict config (classify f)))
    with (Flight.baroAltitude f2).
  change (Flight.heading (predict config (classify f)))
    with (Flight.heading f2).
  change (isDeparting f2) with (isDeparting f1) in Hex.
  change (Flight.distanceToAirport f2) with (Some d) in Hex.
  repeat split.
  - destruct (isDeparting f1); [exfalso; apply Hex; tauto | reflexivity].
  - exists d. split; [reflexivity|].
    apply Rnot_gt_le. intros Hgt. apply Hex.
    right; right; left. now exists d.
  - destruct (Flight.baroAltitude f2) as [a|] eqn:Ea;
      [|exfalso; apply Hex; now left].
    exists a. split; [reflexivity|].
    apply Rnot_gt_le. intros Hgt. apply Hex.
    right; right; right; left. now exists a.
  - now exists h.
Qed.

(** * Properties of the display *)

(** ** The sidebar list *)

Lemma insertByDistance_Permutation (x : Flight.t) (l : list Flight.t) :
  Permutation (insertByDistance x l) (x :: l).
Proof.
  induction l as [|y l IH]; cbn [insertByDistance]; [apply Permutation_refl|].
  destruct (JS.gtb _ _); [|apply Permutation_refl].
  eapply perm_trans; [apply perm_skip, IH | apply perm_swap].
Qed.

Lemma sortByDistance_Permutation (l : list Flight.t) :
  Permutation (sortByDistance l) l.
Proof.
  induction l as [|x l IH]; [constructor|]. cbn [sortByDistance fold_right].
  eapply perm_trans; [apply insertByDistance_Permutation|].
  now apply perm_skip.
Qed.

Lemma insertByDistance_Forall (P : Flight.t -> Prop) (x : Flight.t)
    (l : list Flight.t) :
  P x -> Forall P l -> Forall P (insertByDistance x l).
Proof.
  intros Hx Hl. induction Hl as [|y l Hy Hl IH]; cbn [insertByDistance].
  - now constructor.
  - destruct (JS.gtb _ _); repeat constructor; assumption.
Qed.

Lemma insertByDistance_sorted (x : Flight.t) (l : list Flight.t) :
  StronglySorted nearerFirst l ->
  StronglySorted nearerFirst (insertByDistance x l).
Proof.
  induction 1 as [|y l Hs IH Hy]; cbn [insertByDistance].
  - repeat constructor.
  - destruct (JS.gtb _ _) eqn:E.
    + apply gtb_true in E. constructor; [assumption|].
      apply insertByDistance_Forall; [unfold nearerFirst; lra | assumption].
    + apply gtb_false in E. constructor; [now constructor|].
      constructor; [unfold nearerFirst; lra|].
      eapply Forall_impl; [|exact Hy]. unfold nearerFirst. intros; lra.
Qed.

Lemma sortByDistance_sorted (l : list Flight.t) :
  StronglySorted nearerFirst (sortByDistance l).
Proof.
  induction l as [|x l IH]; [constructor|].
  cbn [sortByDistance fold_right]. now apply insertByDistance_sorted.
Qed.

Lemma insertByDistance_stable (k : R) (x : Flight.t) (l : list Flight.t) :
  filter (keyIs k) (insertByDistance x l) = filter (keyIs k) (x :: l).
Proof.
  induction l as [|y l IH]; cbn [insertByDistance]; [reflexivity|].
  destruct (JS.gtb _ _) eqn:E; [|reflexivity].
  apply gtb_true in E. cbn [filter] in *. rewrite IH.
  unfold keyIs.
  destruct (Req_dec_T (sortKey x) k), (Req_dec_T (sortKey y) k);
    try reflexivity; lra.
Qed.

Lemma sortByDistance_stable (k : R) (l : list Flight.t) :
  filter (keyIs k) (sortByDistance l) = filter (keyIs k) l.
Proof.
  induction l as [|x l IH]; [reflexivity|].
  cbn [sortByDistance fold_right]. rewrite insertByDistance_stable.
  cbn [filter]. fold (sortByDistance l). now rewrite IH.
Qed.

Lemma filter_filter {A : Type} (p q : A -> bool) (l : list A) :
  filter q (filter p l) = filter (fun x => p x && q x) l.
Proof.
  induction l as [|x l IH]; [reflexivity|].
  cbn [filter]. destruct (p x); cbn [filter andb]; [|exact IH].
  destruct (q x); now rewrite IH.
Qed.

Lemma arrivingList_unfold (search : option (Flight.t -> bool))
    (flights : list Flight.t) :
  arrivingList search flights =
  sortByDistance (filter (selectedBy search) flights).
Proof.
  unfold arrivingList, selectedBy. destruct search as [matches|]; cbv zeta.
  - now rewrite filter_filter.
  - f_equal. apply filter_ext. intros f. now rewrite andb_true_r.
Qed.

(** X20: the sidebar lists each flight the filters keep exactly once,
    nearest first by [distanceToAirport || 999] (so a flight with
    distance 0 or no distance sorts as if 999 km away), and flights with
    equal keys keep the order of the batch. *)
Theorem arrivingList_sorted (search : option (Flight.t -> bool))
    (flights : list Flight.t) :
  Permutation (arrivingList search flights)
              (filter (selectedBy search) flights) /\
  StronglySorted nearerFirst (arrivingList search flights) /\
  (forall k, filter (keyIs k) (arrivingList search flights) =
             filter (keyIs k) (filter (selectedBy search) flights)).
Proof.
  rewrite arrivingList_unfold. repeat split.
  - apply sortByDistance_Permutation.
  - apply sortByDistance_sorted.
  - intros k. apply sortByDistance_stable.
Qed.

(** X21: every flight that [runPredictions] marked arriving is in the
    sidebar list of its batch, if it passes the search filter (or there
    is none). *)
Theorem arriving_flights_are_listed (g : Globals)
    (search : option (Flight.t -> bool)) (flights : list Flight.t) :
  Forall (fun f =>
            Flight.isArriving f = Some true ->
            match search with Some matches => matches f | None => true end
              = true ->
            In f (arrivingList search (snd (runPredictions g flights))))
         (snd (runPredictions g flights)).
Proof.
  apply Forall_forall. intros f Hin Harr Hsearch.
  rewrite arrivingList_unfold.
  apply (Permutation_in f
           (Permutation_sym (sortByDistance_Permutation _))).
  apply filter_In. split; [assumption|].
  unfold selectedBy. rewrite Hsearch, andb_true_r.
  unfold isListed. apply orb_true_iff. left.
  unfold runPredictions in Hin. cbn [snd] in Hin. rewrite map_map in Hin.
  apply in_map_iff in Hin. destruct Hin as [f0 [<- _]].
  set (config := detectConfiguration _) in *.
  rewrite predict_isArriving in Harr.
  unfold hasPrediction. rewrite predict_predictedRunway.
  assert (Ht : JS.truthy (Flight.isArriving (classify f0)) = true)
    by now rewrite Harr.
  destruct (predictRunway_arriving (classify f0) config Ht)
    as (id & v & -> & _).
  reflexivity.
Qed.

(** ** The confidence percentage *)

Lemma mathRound_bounds (x : R) (lo hi : Z) :
  IZR lo <= x <= IZR hi -> (lo <= mathRound x <= hi)%Z.
Proof.
  intros [Hlo Hhi]. unfold mathRound.
  destruct (base_Int_part (x + 0.5)) as [H1 H2].
  split.
  - assert (H : IZR (lo - 1) < IZR (Int_part (x + 0.5)))
      by (rewrite minus_IZR; lra).
    apply lt_IZR in H. lia.
  - assert (H : IZR (Int_part (x + 0.5)) < IZR (hi + 1))
      by (rewrite plus_IZR; lra).
    apply lt_IZR in H. lia.
Qed.

(** X22: for every flight of a batch processed by [runPredictions] the
    confidence percentage is a whole number between 0 and 100, and at
    least 30 when the flight has a predicted runway, which is when the
    confidence bar is drawn. *)
Theorem confPct_range (g : Globals) (flights : list Flight.t) :
  Forall (fun f =>
            exists p,
              confPct f = Some p /\ (0 <= p <= 100)%Z /\
              (hasPrediction f = true -> (30 <= p)%Z))
         (snd (runPredictions g flights)).
Proof.
  apply runPredictions_Forall. intros config f.
  unfold confPct, hasPrediction.
  rewrite predict_confidence, predict_predictedRunway.
  destruct (JS.truthy (Flight.isArriving (classify f))) eqn:H.
  - destruct (predictRunway_arriving (classify f) config H)
      as (id & v & -> & Hv).
    cbn [Prediction.confidence Prediction.runway].
    eexists. split; [reflexivity|]. split.
    + apply mathRound_bounds. lra.
    + intros _. apply (mathRound_bounds (v * 100) 30 100). lra.
  - rewrite (predictRunway_not_arriving (classify f) config H).
    cbn [Prediction.confidence Prediction.runway].
    eexists. split; [reflexivity|]. split.
    + apply mathRound_bounds. lra.
    + discriminate.
Qed.

(** ** The aircraft markers *)

Lemma hasMarker_false_getMarker (markers : Markers) (icao : string) :
  hasMarker markers icao = false -> getMarker markers icao = None.
Proof.
  unfold hasMarker. induction markers as [|[k m] rest IH];
    cbn [existsb getMarker fst]; [reflexivity|].
  destruct (String.eqb k icao); [discriminate | exact IH].
Qed.

Lemma hasMarker_In (markers : Markers) (icao : string) :
  hasMarker markers icao = true <-> In icao (map fst markers).
Proof.
  unfold hasMarker. rewrite existsb_exists, in_map_iff. split.
  - intros [e [Hin He]]. apply String.eqb_eq in He. now exists e.
  - intros [e [He Hin]]. exists e. split; [assumption|].
    now apply String.eqb_eq.
Qed.

Lemma getMarker_refresh (markers : Markers) (icao k : string)
    (f : Flight.t) :
  hasMarker markers icao = true ->
  getMarker (refreshMarker markers icao f) k =
  if String.eqb icao k then Some f else getMarker markers k.
Proof.
  unfold hasMarker. induction markers as [|[k' m] rest IH];
    cbn [existsb refreshMarker getMarker fst]; [discriminate|].
  destruct (String.eqb k' icao) eqn:E; cbn [getMarker orb].
  - apply String.eqb_eq in E. subst k'. now destruct (String.eqb icao k).
  - intros H. rewrite (IH H).
    destruct (String.eqb k' k) eqn:E'; [|reflexivity].
    apply String.eqb_eq in E'. subst k'.
    destruct (String.eqb icao k) eqn:E''; [|reflexivity].
    apply String.eqb_eq in E''. subst icao.
    rewrite String.eqb_refl in E. discriminate.
Qed.

Lemma getMarker_app (markers : Markers) (icao k : string) (f : Flight.t) :
  getMarker (markers ++ [(icao, f)]) k =
  match getMarker markers k with
  | Some m => Some m
  | None => if String.eqb icao k then Some f else None
  end.
Proof.
  induction markers as [|[k' m] rest IH]; cbn [app getMarker];
    [reflexivity|].
  now destruct (String.eqb k' k).
Qed.

Lemma getMarker_drawAircraft (markers : Markers) (f : Flight.t)
    (k : string) :
  getMarker (drawAircraft markers f) k =
  if String.eqb (Flight.icao24 f) k then Some f else getMarker markers k.
Proof.
  unfold drawAircraft. destruct (hasMarker markers (Flight.icao24 f)) eqn:H.
  - now apply getMarker_refresh.
  - rewrite getMarker_app.
    destruct (String.eqb (Flight.icao24 f) k) eqn:E.
    + apply String.eqb_eq in E. subst k.
      now rewrite (hasMarker_false_getMarker _ _ H).
    + now destruct (getMarker markers k).
Qed.

Lemma refreshMarker_keys (markers : Markers) (icao : string)
    (f : Flight.t) :
  map fst (refreshMarker markers icao f) = map fst markers.
Proof.
  induction markers as [|[k m] rest IH]; cbn [refreshMarker map fst];
    [reflexivity|].
  destruct (String.eqb k icao); cbn [map fst]; [reflexivity|].
  now rewrite IH.
Qed.

Lemma drawAircraft_NoDup (markers : Markers) (f : Flight.t) :
  NoDup (map fst markers) -> NoDup (map fst (drawAircraft markers f)).
Proof.
  intros H. unfold drawAircraft.
  destruct (hasMarker markers (Flight.icao24 f)) eqn:E.
  - now rewrite refreshMarker_keys.
  - rewrite map_app. cbn [map fst].
    apply NoDup_app_remove_l with (l := []). cbn [app].
    apply Permutation_NoDup with (l := Flight.icao24 f :: map fst markers).
    + apply Permutation_cons_append.
    + constructor; [|assumption].
      intros Hin. apply hasMarker_In in Hin. congruence.
Qed.

Lemma fold_drawAircraft_NoDup (flightData : list Flight.t)
    (markers : Markers) :
  NoDup (map fst markers) ->
  NoDup (map fst (fold_left drawAircraft flightData markers)).
Proof.
  revert markers. induction flightData as [|f l IH]; intros markers H;
    cbn [fold_left]; [assumption|].
  apply IH. now apply drawAircraft_NoDup.
Qed.

Lemma filter_keys_NoDup (p : string * Flight.t -> bool) (markers : Markers) :
  NoDup (map fst markers) -> NoDup (map fst (filter p markers)).
Proof.
  induction markers as [|e rest IH]; cbn [filter map]; [trivial|].
  intros H. inversion H as [|? ? Hnotin Hrest]; subst.
  destruct (p e); cbn [map]; [|now apply IH].
  constructor; [|now apply IH].
  intros Hin. apply Hnotin.
  apply in_map_iff in Hin. destruct Hin as [e' [He' Hin]].
  apply filter_In in Hin. apply in_map_iff. exists e'. tauto.
Qed.

Lemma find_app_last {A : Type} (p : A -> bool) (l : list A) (x : A) :
  find p (l ++ [x]) =
  match find p l with
  | Some y => Some y
  | None => if p x then Some x else None
  end.
Proof.
  induction l as [|y l IH]; cbn [app find]; [reflexivity|].
  now destruct (p y).
Qed.

Lemma getMarker_fold_drawAircraft (flightData : list Flight.t)
    (markers : Markers) (k : string) :
  getMarker (fold_left drawAircraft flightData markers) k =
  match lastFlightOf k flightData with
  | Some f => Some f
  | None => getMarker markers k
  end.
Proof.
  unfold lastFlightOf. revert markers.
  induction flightData as [|f l IH]; intros markers; cbn [fold_left rev];
    [reflexivity|].
  rewrite IH, getMarker_drawAircraft, find_app_last.
  destruct (find _ (rev l)); [reflexivity|].
  now destruct (String.eqb (Flight.icao24 f) k).
Qed.

Lemma getMarker_Some_In (markers : Markers) (k : string) (m : Flight.t) :
  getMarker markers k = Some m -> In k (map fst markers).
Proof.
  induction markers as [|[k' m'] rest IH]; cbn [getMarker map fst In];
    [discriminate|].
  destruct (String.eqb k' k) eqn:E.
  - apply String.eqb_eq in E. now left.
  - intros H. right. now apply IH.
Qed.

(** X23: after [updateAircraftOnMap] the markers mirror the batch: the
    marker of an [icao24] shows the last flight of the batch with that
    [icao24], an [icao24] that is not in the batch has no marker, and no
    [icao24] has two markers. *)
Theorem updateAircraftOnMap_mirrors (markers : Markers)
    (flightData : list Flight.t) :
  NoDup (map fst markers) ->
  NoDup (map fst (updateAircraftOnMap markers flightData)) /\
  (forall icao,
     getMarker (updateAircraftOnMap markers flightData) icao =
     lastFlightOf icao flightData) /\
  (forall icao,
     hasMarker (updateAircraftOnMap markers flightData) icao =
     existsb (String.eqb icao) (map Flight.icao24 flightData)).
Proof.
  intros Hnd. unfold updateAircraftOnMap. cbv zeta.
  set (kept := filter _ markers).
  assert (Hget : forall icao,
            getMarker (fold_left drawAircraft flightData kept) icao =
            lastFlightOf icao flightData).
  { intros icao. rewrite getMarker_fold_drawAircraft.
    destruct (lastFlightOf icao flightData) eqn:E; [reflexivity|].
    destruct (getMarker kept icao) as [m|] eqn:Em; [exfalso | reflexivity].
    apply getMarker_Some_In in Em. apply in_map_iff in Em.
    destruct Em as [[k m'] [Hk Hin]]. cbn [fst] in Hk. subst k.
    apply filter_In in Hin. destruct Hin as [_ Hex]. cbn [fst] in Hex.
    apply existsb_exists in Hex. destruct Hex as [i [Hi Heq]].
    apply String.eqb_eq in Heq. subst i.
    apply in_map_iff in Hi. destruct Hi as [f [Hf Hfin]].
    unfold lastFlightOf in E.
    apply in_rev in Hfin. apply (find_none _ _ E) in Hfin.
    rewrite Hf, String.eqb_refl in Hfin. discriminate. }
  split; [now apply fold_drawAircraft_NoDup, filter_keys_NoDup|].
  split; [exact Hget|].
  intros icao. specialize (Hget icao).
  destruct (hasMarker _ icao) eqn:Hhas.
  - symmetry. apply existsb_exists.
    destruct (getMarker (fold_left drawAircraft flightData kept) icao)
      as [m|] eqn:Em.
    + symmetry in Hget. unfold lastFlightOf in Hget.
      apply find_some in Hget. destruct Hget as [Hin Heq].
      apply String.eqb_eq in Heq. exists icao. split.
      * apply in_map_iff. exists m. split; [assumption|].
        now apply in_rev.
      * apply String.eqb_refl.
    + exfalso. apply hasMarker_In in Hhas.
      clear - Hhas Em.
      induction (fold_left drawAircraft flightData kept) as [|[k m] r IH];
        cbn [map fst In getMarker] in *; [contradiction|].
      destruct (String.eqb k icao) eqn:E; [discriminate|].
      destruct Hhas as [->|Hin]; [|now apply IH].
      rewrite String.eqb_refl in E. discriminate.
  - symmetry. apply not_true_is_false. intros Hex.
    apply existsb_exists in Hex. destruct Hex as [i [Hi Heq]].
    apply String.eqb_eq in Heq. subst i.
    apply in_map_iff in Hi. destruct Hi as [f [Hf Hfin]].
    apply hasMarker_false_getMarker in Hhas. rewrite Hhas in Hget.
    symmetry in Hget. unfold lastFlightOf in Hget.
    apply in_rev in Hfin. apply (find_none _ _ Hget) in Hfin.
    rewrite Hf, String.eqb_refl in Hfin. discriminate.
Qed.

Lemma updateAircraftOnMap_mirrors_witness :
  NoDup (map fst (updateAircraftOnMap [] [southOfField; climbingOut])) /\
  (forall icao,
     getMarker (updateAircraftOnMap [] [southOfField; climbingOut]) icao =
     lastFlightOf icao [southOfField; climbingOut]) /\
  (forall icao,
     hasMarker (updateAircraftOnMap [] [southOfField; climbingOut]) icao =
     existsb (String.eqb icao)
             (map Flight.icao24 [southOfField; climbingOut])).
Proof.
  apply (updateAircraftOnMap_mirrors [] [southOfField; climbingOut]).
  constructor.
Defined.

(** * Climbing flights across the engine *)

(** Every departure rule asks for a climb and for less than 40 km. *)
Lemma isDeparting_needs_climb (f : Flight.t) :
  isDeparting f = true ->
  vrAbove f 0 /\ exists d, Flight.distanceToAirport f = Some d /\ d < 40.
Proof.
  intros E.
  destruct (Flight.distanceToAirport f) as [dist|] eqn:Hd;
    [|unfold isDeparting in E; rewrite Hd in E; discriminate].
  destruct (Flight.baroAltitude f) as [alt|] eqn:Ha;
    [|unfold isDeparting in E; rewrite Hd, Ha in E; discriminate].
  apply (isDeparting_known f dist alt Hd Ha) in E.
  unfold departureRule1, departureRule2, departureRule3, departureRule4,
    vrAbove in *.
  split.
  - destruct E as [(_ & v & Hv & ?) | [(_ & _ & v & Hv & ?) |
      [(_ & _ & _ & v & Hv & ?) | (_ & _ & (v & Hv & ?) & _)]]];
      exists v; split; try assumption; lra.
  - exists dist. split; [reflexivity|]. intuition lra.
Qed.

(** X24: a flight for which [isArriving] holds is not climbing hard: a
    known vertical rate is at most 3 m/s, at most 2 m/s within 30 km of
    the airport, and at most 0.5 m/s within 15 km and below 1500 m;
    anything steeper is a departure. *)
Theorem arriving_not_climbing (f : Flight.t) (v : R) :
  isArriving f = true ->
  Flight.verticalRate f = Some v ->
  v <= 3 /\
  (forall d, Flight.distanceToAirport f = Some d -> d < 30 -> v <= 2) /\
  (forall d a,
     Flight.distanceToAirport f = Some d ->
     Flight.baroAltitude f = Some a -> d < 15 -> a < 1500 -> v <= 0.5).
Proof.
  intros Harr Hv. apply isArriving_true_iff in Harr.
  destruct Harr as [Hex _]. unfold arrivalExcluded in Hex.
  assert (Hnd : isDeparting f <> true) by tauto.
  assert (Hvr : ~ vrAbove f 3) by tauto.
  repeat split.
  - apply Rnot_gt_le. intros Hgt. apply Hvr. now exists v.
  - intros d Hd Hlt. apply Rnot_gt_le. intros Hgt. apply Hnd.
    destruct (Flight.baroAltitude f) as [a|] eqn:Ha;
      [|exfalso; apply Hex; now left].
    apply (isDeparting_known f d a Hd Ha). left.
    split; [assumption | now exists v].
  - intros d a Hd Ha Hlt Hlow. apply Rnot_gt_le. intros Hgt. apply Hnd.
    apply (isDeparting_known f d a Hd Ha). right; left.
    repeat split; try assumption. now exists v.
Qed.

Lemma shortFinal_arriving : isArriving shortFinal = true.
Proof.
  apply isArriving_true_iff. split.
  - intros [H | [H | [[d [[= <-] H]] | [[a [[= <-] H]] | [H | [v [[= <-] H]]]]]]];
      try discriminate; try lra.
    apply isDeparting_needs_climb in H. destruct H as [[v [[= <-] H]] _]. lra.
  - exists 249. split; [reflexivity|]. split.
    + left. unfold within. rewrite (angleDiff_eq 249 249 0) by lra.
      rewrite Rabs_right; lra.
    + intros [d [[= <-] H]]. lra.
Qed.

Lemma arriving_not_climbing_witness :
  -3 <= 3 /\
  (forall d, Flight.distanceToAirport shortFinal = Some d -> d < 30 -> -3 <= 2) /\
  (forall d a,
     Flight.distanceToAirport shortFinal = Some d ->
     Flight.baroAltitude shortFinal = Some a -> d < 15 -> a < 1500 ->
     -3 <= 0.5).
Proof.
  exact (arriving_not_climbing shortFinal (-3) shortFinal_arriving eq_refl).
Defined.

(** A classified flight that may vote is not departing, so the filter of
    [runPredictions] keeps it. *)
Lemma classify_eligible_kept (f : Flight.t) :
  eligible (classify f) = true -> notDepartingOrArriving (classify f) = true.
Proof.
  intros He. unfold notDepartingOrArriving.
  apply orb_true_iff. right. apply negb_true_iff.
  set (f1 := Flight.set_distanceToAirport
               (haversine (Flight.latitude f) (Flight.longitude f)
                          (lat FRA) (lng FRA)) f).
  change (Flight.isDeparting (classify f)) with (Some (isDeparting f1)).
  cbn [JS.truthy].
  destruct (isDeparting f1) eqn:E; [exfalso | reflexivity].
  apply isDeparting_needs_climb in E. destruct E as [[v [Hv Hpos]] _].
  unfold eligible in He.
  change (Flight.verticalRate (classify f)) with (Flight.verticalRate f1) in He.
  rewrite Hv in He.
  destruct (Flight.baroAltitude (classify f)); [|discriminate].
  destruct (Flight.heading (classify f)); [|discriminate].
  destruct (Flight.distanceToAirport (classify f)); [|discriminate].
  rewrite !andb_true_iff, !ltb_true in He. lra.
Qed.

(** X25: the filter [runPredictions] applies before
    [detectConfiguration] changes nothing: a departing flight is climbing
    and a voting flight is descending, so the configuration left in
    [activeConfig] is the one [detectConfiguration] finds on the whole
    classified batch. *)
Theorem runPredictions_filter_redundant (g : Globals)
    (flights : list Flight.t) :
  activeConfig (fst (runPredictions g flights)) =
  Some (detectConfiguration (map classify flights)).
Proof.
  unfold runPredictions. cbn [fst activeConfig]. f_equal.
  fold notDepartingOrArriving.
  apply detectConfiguration_same_votes. intros dir.
  rewrite filter_filter_length. f_equal. apply filter_ext_in.
  intros c Hin. apply in_map_iff in Hin. destruct Hin as [f [<- _]].
  unfold votesFor.
  destruct (eligible (classify f)) eqn:He.
  - now rewrite (classify_eligible_kept f He).
  - cbn [andb]. apply andb_false_r.
Qed.
